(** * The CNE results scraper (src/cne_scraper.py), embedded in Rocq

    The crawl-and-ingest engine of the repository: the fetch client,
    the asset store, the per-station record builder and the navigator,
    as functions over an explicit world (persistence store, file system,
    upstream server, event trace).  Coroutines run one after the other:
    the fetches [asyncio.gather] starts together run in list order, the
    gathered downloads send their requests in list order once each has
    looked at the disk, and the workers are looked at one item at a
    time. *)

From Stdlib Require Import PrimFloat.
From Stdlib Require SpecFloat FloatOps DecimalFacts DecimalPos.
From Stdlib Require Import ZArith String Ascii List Bool Lia DecimalString DecimalZ.
From stdpp Require Import base option gmap strings.
Import ListNotations.
Local Open Scope string_scope.
Local Open Scope Z_scope.

(** ** Python values

    Everything the scraper handles comes out of [response.json()]: the
    values of Python's [json.loads].  A JSON number is an [int] of any
    size (of any size [json.loads] reads: no more than 4300 digits from
    CPython 3.11 on) or a [float], an IEEE 754 double (NaN and the
    infinities included, which [json.loads] reads).  A [str] is a
    sequence of characters, here the code points below 256, one to an
    [ascii].  A [dict] lists each key once, in insertion order; lookup
    returns the first binding. *)

#[local] Set Warnings "-register-all".

Inductive value : Type :=
| VNone
| VBool (b : bool)
| VInt (n : Z)
| VFloat (f : float)
| VStr (s : string)
| VList (l : list value)
| VDict (d : list (string * value)).

(** The exceptions the handled builtins raise; [ClientError] stands for
    what aiohttp raises on a request (transport failure, timeout, a URL
    it cannot use, a body it cannot read or decode), [OSError] for what
    opening or writing a file raises, [BindError] for what sqlite3
    raises on a parameter of a type it does not support. *)
Inductive exn : Type :=
| AttributeError
| TypeError
| ValueError
| KeyError
| OverflowError
| ClientError
| OSError
| BindError.

Inductive result (A : Type) : Type :=
| Ok (a : A)
| Raise (e : exn).
Arguments Ok {A} a.
Arguments Raise {A} e.

#[global] Instance result_ret : MRet result := fun A a => Ok a.
#[global] Instance result_bind : MBind result := fun A B k r =>
  match r with
  | Ok a => k a
  | Raise e => Raise e
  end.

(** ** Strings: [str], [int] and path building *)

Module Str.

Definition decimal (n : Z) : string := NilZero.string_of_int (Z.to_int n).

Fixpoint zeros (k : nat) : string :=
  match k with
  | O => ""
  | S k' => String "0" (zeros k')
  end.

(** [format(n, "05d")]: zero padding to width 5, the sign first. *)
Definition pad5 (n : Z) : string :=
  let sign := if n <? 0 then "-" else "" in
  let digits := decimal (Z.abs n) in
  sign +:+ zeros (5 - String.length sign - String.length digits) +:+ digits.

(** The whitespace [int] skips around a numeral: tab, line feed,
    vertical tab, form feed, carriage return and space, and beyond
    ASCII the next-line character (U+0085) and the no-break space
    (U+00A0); not the separators U+001C to U+001F. *)
Definition is_space (c : ascii) : bool :=
  let n := nat_of_ascii c in
  ((9 <=? n) && (n <=? 13) || (n =? 32) || (n =? 133) || (n =? 160))%nat.

Fixpoint lstrip (cs : list ascii) : list ascii :=
  match cs with
  | c :: cs' => if is_space c then lstrip cs' else cs
  | [] => []
  end.

Definition strip (cs : list ascii) : list ascii :=
  rev (lstrip (rev (lstrip cs))).

Definition digit_of (c : ascii) : option Z :=
  let n := nat_of_ascii c in
  if ((48 <=? n) && (n <=? 57))%nat then Some (Z.of_nat n - 48) else None.

(** Decimal digits, single underscores allowed between digits. *)
Fixpoint digits (acc : Z) (after_digit : bool) (cs : list ascii) : option Z :=
  match cs with
  | [] => if after_digit then Some acc else None
  | c :: cs' =>
      match digit_of c with
      | Some d => digits (10 * acc + d) true cs'
      | None =>
          if Ascii.eqb c "_" && after_digit then digits acc false cs' else None
      end
  end.

(** The number of digits [int] reads at most, and [str] prints at most
    (CPython 3.11, by default). *)
Definition max_str_digits : nat := 4300.

Definition count_digits (cs : list ascii) : nat :=
  length (List.filter (fun c => match digit_of c with
                                | Some _ => true
                                | None => false
                                end) cs).

(** [int(s)] for a str [s]: surrounding whitespace, an optional sign,
    decimal digits, no more than [max_str_digits] of them. *)
Definition to_int (s : string) : result Z :=
  let cs := strip (list_ascii_of_string s) in
  let parsed :=
    match cs with
    | c :: cs' =>
        if Ascii.eqb c "-" then Z.opp <$> digits 0 false cs'
        else if Ascii.eqb c "+" then digits 0 false cs'
        else digits 0 false (c :: cs')
    | [] => None
    end in
  match parsed with
  | Some n => if (max_str_digits <? count_digits cs)%nat then Raise ValueError else Ok n
  | None => Raise ValueError
  end.

Definition dquote : ascii := ascii_of_nat 34.
Definition squote : ascii := ascii_of_nat 39.
Definition backslash : ascii := ascii_of_nat 92.

Definition has_char (c : ascii) (s : string) : bool :=
  existsb (Ascii.eqb c) (list_ascii_of_string s).

Definition hex_digit (n : nat) : ascii :=
  ascii_of_nat (if (n <? 10)%nat then 48 + n else 87 + n).

Definition repr_char (quote c : ascii) : string :=
  let n := nat_of_ascii c in
  if Ascii.eqb c quote || Ascii.eqb c backslash then String backslash (String c "")
  else if (n =? 9)%nat then String backslash "t"
  else if (n =? 10)%nat then String backslash "n"
  else if (n =? 13)%nat then String backslash "r"
  else if ((n <? 32) || (127 <=? n) && (n <=? 160) || (n =? 173))%nat then
    String backslash (String "x" (String (hex_digit (n / 16)) (String (hex_digit (n mod 16)) "")))
  else String c "".

(** [repr(s)] for a str: quoted, the characters that do not print
    (the controls, the no-break space, the soft hyphen) escaped. *)
Definition repr_str (s : string) : string :=
  let quote := if has_char squote s && negb (has_char dquote s) then dquote else squote in
  String quote
    (String.concat "" (map (repr_char quote) (list_ascii_of_string s))
     +:+ String quote "").

(** [posixpath.join(a, b)]. *)
Definition path_join (a b : string) : string :=
  match b with
  | String "/" _ => b
  | _ =>
      if String.eqb a "" then b
      else if Ascii.eqb (List.last (list_ascii_of_string a) "/"%char) "/" then a +:+ b
      else a +:+ "/" +:+ b
  end.

(** [s.split(sep)[0]] for a one-character separator: what precedes its first occurrence. *)
Fixpoint before (sep : ascii) (s : string) : string :=
  match s with
  | EmptyString => ""
  | String c s' => if Ascii.eqb c sep then "" else String c (before sep s')
  end.

End Str.

(** ** Python's float: IEEE 754 binary64 *)

Module Float.

(** [float(n)] for an int [n], as the mixed operations convert it: the
    nearest double, ties to even; OverflowError when [n] is too large. *)
Definition of_int (n : Z) : result float :=
  match SpecFloat.binary_normalize FloatOps.prec FloatOps.emax n 0 false with
  | SpecFloat.S754_infinity _ => Raise OverflowError
  | f => Ok (FloatOps.SF2Prim f)
  end.

(** [int(f)]: truncation towards zero. *)
Definition to_int (f : float) : result Z :=
  match FloatOps.Prim2SF f with
  | SpecFloat.S754_nan => Raise ValueError
  | SpecFloat.S754_infinity _ => Raise OverflowError
  | SpecFloat.S754_zero _ => Ok 0
  | SpecFloat.S754_finite s m e =>
      let a := if 0 <=? e then Z.pos m * 2 ^ e else Z.pos m / 2 ^ (- e) in
      Ok (if s then - a else a)
  end.

(** [f == n] for an int [n]: the comparison is exact. *)
Definition eq_int (f : float) (n : Z) : bool :=
  match FloatOps.Prim2SF f with
  | SpecFloat.S754_zero _ => n =? 0
  | SpecFloat.S754_finite s m e =>
      let a := if s then Z.neg m else Z.pos m in
      if 0 <=? e then a * 2 ^ e =? n else a =? n * 2 ^ (- e)
  | _ => false
  end.

(** [x * 2^e] against [c * 10^q]. *)
Definition compare_scaled (x e c q : Z) : comparison :=
  (x * 2 ^ Z.max e 0 * 10 ^ Z.max (- q) 0 ?= c * 10 ^ Z.max q 0 * 2 ^ Z.max (- e) 0).

(** The decimal point of [m * 2^e]: the [d] with
    10^(d-1) <= m * 2^e < 10^d, searched upwards from an estimate that
    is never too large. *)
Fixpoint decimal_point_from (fuel : nat) (m e d : Z) : Z :=
  match fuel with
  | O => d
  | S fuel' =>
      match compare_scaled m e 1 d with
      | Lt => d
      | _ => decimal_point_from fuel' m e (d + 1)
      end
  end.

Definition decimal_point (m : positive) (e : Z) : Z :=
  let bits := Z.pos (SpecFloat.digits2_pos m) + e in
  decimal_point_from 4 (Z.pos m) e ((bits - 1) * 30102 / 100000 - 1).

(** Whether [c * 10^q] reads back as the double [m * 2^e]: it lies
    within half a gap of it, the ends included when [m] is even (ties go
    to the even mantissa).  The gap below the first mantissa of a binade
    is half the gap above. *)
Definition reads_back (m : positive) (e c q : Z) : bool :=
  let below := if Pos.eqb m (2 ^ 52) && (FloatOps.emin <? e) then 1 else 2 in
  let lo := compare_scaled (4 * Z.pos m - below) (e - 2) c q in
  let hi := compare_scaled (4 * Z.pos m + 2) (e - 2) c q in
  match lo, hi with
  | Lt, Gt => true
  | Eq, _ | _, Eq => Z.even (Z.pos m)
  | _, _ => false
  end.

(** The [k]-digit decimal nearest to [m * 2^e] that reads back as it,
    if there is one. *)
Definition nearest_digits (m : positive) (e d k : Z) : option Z :=
  let q := d - k in
  let c := (Z.pos m * 2 ^ Z.max e 0 * 10 ^ Z.max (- q) 0)
           / (2 ^ Z.max (- e) 0 * 10 ^ Z.max q 0) in
  let lower := reads_back m e c q in
  let upper := reads_back m e (c + 1) q in
  if lower && upper then
    match compare_scaled (2 * Z.pos m) e (2 * c + 1) q with
    | Gt => Some (c + 1)
    | _ => Some c
    end
  else if lower then Some c
  else if upper then Some (c + 1)
  else None.

(** The fewest digits that read back: 17 always do. *)
Fixpoint shortest_from (fuel : nat) (m : positive) (e d k : Z) : Z * Z :=
  match fuel with
  | O => (Z.pos m, k)
  | S fuel' =>
      match nearest_digits m e d k with
      | Some c => (c, k)
      | None => shortest_from fuel' m e d (k + 1)
      end
  end.

Fixpoint drop_zeros (fuel : nat) (c : Z) : Z :=
  match fuel with
  | O => c
  | S fuel' =>
      if (c mod 10 =? 0) && negb (c =? 0) then drop_zeros fuel' (c / 10) else c
  end.

(** The digits and the decimal point of the shortest decimal that
    reads back as [m * 2^e]. *)
Definition shortest (m : positive) (e : Z) : string * Z :=
  let d := decimal_point m e in
  let ck := shortest_from 17 m e d 1 in
  (Str.decimal (drop_zeros 17 (fst ck)),
   if fst ck =? 10 ^ snd ck then d + 1 else d).

Definition exponent (x : Z) : string :=
  let digits := Str.decimal (Z.abs x) in
  (if x <? 0 then "e-" else "e+")
  +:+ (if (String.length digits <? 2)%nat then "0" else "") +:+ digits.

(** The layout of [repr]: exponent notation below 1e-4 and from 1e16
    on; a point in every case but after the single digit of a
    mantissa. *)
Definition layout (digits : string) (d : Z) : string :=
  let n := Z.of_nat (String.length digits) in
  if (d <=? -4) || (16 <? d) then
    match digits with
    | String c rest =>
        String c (if String.eqb rest "" then "" else "." +:+ rest)
        +:+ exponent (d - 1)
    | EmptyString => ""
    end
  else if d <=? 0 then "0." +:+ Str.zeros (Z.to_nat (- d)) +:+ digits
  else if n <=? d then digits +:+ Str.zeros (Z.to_nat (d - n)) +:+ ".0"
  else String.substring 0 (Z.to_nat d) digits +:+ "."
       +:+ String.substring (Z.to_nat d) (Z.to_nat (n - d)) digits.

(** [repr(f)], which is also [str(f)]: the shortest decimal that reads
    back as [f]. *)
Definition repr (f : float) : string :=
  match FloatOps.Prim2SF f with
  | SpecFloat.S754_nan => "nan"
  | SpecFloat.S754_infinity s => if s then "-inf" else "inf"
  | SpecFloat.S754_zero s => if s then "-0.0" else "0.0"
  | SpecFloat.S754_finite s m e =>
      (if s then "-" else "") +:+ layout (fst (shortest m e)) (snd (shortest m e))
  end.

End Float.

(** A Python number: what the arithmetic of the scraper yields. *)
Inductive number : Type :=
| Int (n : Z)
| Real (f : float).

(** ** Python builtins *)

Module Py.

Fixpoint repr (v : value) : string :=
  match v with
  | VNone => "None"
  | VBool true => "True"
  | VBool false => "False"
  | VInt n => Str.decimal n
  | VFloat f => Float.repr f
  | VStr s => Str.repr_str s
  | VList l => "[" +:+ String.concat ", " (map repr l) +:+ "]"
  | VDict d =>
      "{" +:+ String.concat ", "
                (map (fun kv => match kv with
                                | (k, x) => Str.repr_str k +:+ ": " +:+ repr x
                                end) d) +:+ "}"
  end.

(** [bool(v)]: the truth value used by [if v], [not v] and [a or b]. *)
Definition truthy (v : value) : bool :=
  match v with
  | VNone => false
  | VBool b => b
  | VInt n => negb (n =? 0)
  | VFloat f => negb (PrimFloat.is_zero f)
  | VStr s => negb (String.eqb s "")
  | VList l => match l with [] => false | _ => true end
  | VDict d => match d with [] => false | _ => true end
  end.

(** [a or b], both operands already evaluated (the second operand of
    every [or] in the scraper is either a literal or a [.get] on the
    object the first operand was read from). *)
Definition or (a b : value) : value := if truthy a then a else b.

Fixpoint lookup (d : list (string * value)) (k : string) : option value :=
  match d with
  | [] => None
  | (k', v) :: d' => if String.eqb k' k then Some v else lookup d' k
  end.

(** [k in d] for a dict [d]. *)
Definition has_key (d : list (string * value)) (k : string) : bool :=
  match lookup d k with Some _ => true | None => false end.

(** [v.get(k, default)]: only a dict has the method. *)
Definition get (v : value) (k : string) (default : value) : result value :=
  match v with
  | VDict d => Ok (match lookup d k with Some x => x | None => default end)
  | _ => Raise AttributeError
  end.

(** [v[k]] for a string key [k]. *)
Definition getitem (v : value) (k : string) : result value :=
  match v with
  | VDict d => match lookup d k with Some x => Ok x | None => Raise KeyError end
  | _ => Raise TypeError
  end.

(** The items a [for] loop over [v] visits: the elements of a list,
    the keys of a dict, the characters of a str (one per byte here). *)
Definition iter (v : value) : result (list value) :=
  match v with
  | VList l => Ok l
  | VDict d => Ok (map (fun kv => VStr (fst kv)) d)
  | VStr s => Ok (map (fun c => VStr (String c "")) (list_ascii_of_string s))
  | _ => Raise TypeError
  end.

Definition is_str (k : string) (v : value) : bool :=
  match v with VStr s => String.eqb s k | _ => false end.

Definition is_substring (k s : string) : bool :=
  match String.index 0 k s with Some _ => true | None => false end.

(** [k in v] for a str [k]. *)
Definition contains (k : string) (v : value) : result bool :=
  match v with
  | VDict d => Ok (has_key d k)
  | VList l => Ok (existsb (is_str k) l)
  | VStr s => Ok (is_substring k s)
  | _ => Raise TypeError
  end.

(** The values that are numbers: int, bool (an int) and float. *)
Definition number_of (v : value) : option number :=
  match v with
  | VInt n => Some (Int n)
  | VBool b => Some (Int (Z.b2z b))
  | VFloat f => Some (Real f)
  | _ => None
  end.

Definition value_of (x : number) : value :=
  match x with
  | Int n => VInt n
  | Real f => VFloat f
  end.

(** [a + b] on numbers: exact on ints; with a float on either side the
    int is converted and the doubles are added. *)
Definition plus (a b : number) : result number :=
  match a, b with
  | Int x, Int y => Ok (Int (x + y))
  | Int x, Real g => f ← Float.of_int x; Ok (Real (PrimFloat.add f g))
  | Real f, Int y => g ← Float.of_int y; Ok (Real (PrimFloat.add f g))
  | Real f, Real g => Ok (Real (PrimFloat.add f g))
  end.

(** [x + v] for a number [x]: defined when [v] is a number. *)
Definition add (x : number) (v : value) : result number :=
  match number_of v with
  | Some y => plus x y
  | None => Raise TypeError
  end.

(** [sum(vs)]: starts from 0 and adds left to right (as CPython does up
    to 3.11; from 3.12 on the builtin compensates the rounding errors of
    float additions, which can change the last bits of a float sum). *)
Fixpoint sum_from (acc : number) (vs : list value) : result number :=
  match vs with
  | [] => Ok acc
  | v :: vs' => acc' ← add acc v; sum_from acc' vs'
  end.

Definition sum (vs : list value) : result number := sum_from (Int 0) vs.

(** [v == 1]. *)
Definition eq_one (v : value) : bool :=
  match v with
  | VInt n => n =? 1
  | VBool b => b
  | VFloat f => Float.eq_int f 1
  | _ => false
  end.

(** [str(v)], also what an f-string field renders. *)
Definition str (v : value) : string :=
  match v with
  | VStr s => s
  | _ => repr v
  end.

(** [int(v)]. *)
Definition int (v : value) : result Z :=
  match v with
  | VInt n => Ok n
  | VBool b => Ok (Z.b2z b)
  | VFloat f => Float.to_int f
  | VStr s => Str.to_int s
  | _ => Raise TypeError
  end.

(** A dict key must be hashable: a list or a dict is not. *)
Definition hashable (v : value) : bool :=
  match v with
  | VList _ | VDict _ => false
  | _ => true
  end.

End Py.

(** ** Vote-count extraction (the closure of [procesar_mesa_task]) *)

(** The loop [for item in items: total += item.get("votos", 0)]. *)
Fixpoint sumar_votos (total : number) (items : list value) : result number :=
  match items with
  | [] => Ok total
  | item :: rest =>
      v ← Py.get item "votos" (VInt 0);
      total' ← Py.add total v;
      sumar_votos total' rest
  end.

Definition extraer_votos (resp : value) : result number :=
  match resp with
  | VNone => Ok (Int 0)
  | VInt n => Ok (Int n)
  | VBool b => Ok (Int (Z.b2z b))
  | VFloat f => n ← Float.to_int f; Ok (Int n)
  | VList items => sumar_votos (Int 0) items
  | VDict d =>
      if Py.has_key d "resultados" then
        rs ← Py.getitem resp "resultados";
        items ← Py.iter rs;
        sumar_votos (Int 0) items
      else if Py.has_key d "votos" then
        v ← Py.get resp "votos" (VInt 0);
        Py.add (Int 0) v
      else Ok (Int 0)
  | VStr _ => Ok (Int 0)
  end.

(** ** The scraper object and the persisted record *)

Record CNE_Scraper_Async : Type := {
  project_root : string;
  db_file : string;
  NUM_WORKERS : nat;
  BASE_API : string;
  NIVEL : string;
  URL_VOTOS : string;
  pdf_dir : string;
  img_folder : string;
}.

(** [__init__], from the project root the script location resolves to.
    The request headers are constant and left out of the requests below. *)
Definition init (root : string) : CNE_Scraper_Async :=
  let base_api := "https://resultadosgenerales2025-api.cne.hn/esc/v1" in
  {| project_root := root;
     db_file := Str.path_join (Str.path_join (Str.path_join root "data") "databases")
                  "HND_2025_Presidential_Results.db";
     NUM_WORKERS := 4;
     BASE_API := base_api;
     NIVEL := "01";
     URL_VOTOS := base_api +:+ "/presentacion-resultados/votos";
     pdf_dir := Str.path_join (Str.path_join (Str.path_join root "assets") "scans") "pdf";
     img_folder := Str.path_join (Str.path_join root "assets") "party_logos" |}.

(** The dicts [ids_geo] and [noms_geo]: one entry per level. *)
Record geo : Type := {
  depto : value;
  muni : value;
  zona : value;
  centro : value;
}.

Record imgs_locales : Type := {
  partido : string;
  candidato : string;
}.

(** An entry of [lista_candidatos]. *)
Record candidato_entry : Type := {
  id_partido_string : value;
  id_partido_int : value;
  id_candidato : value;
  nombre_candidato : value;
  nombre_partido : value;
  votos : value;
  color_hex : value;
  imgs : imgs_locales;
}.

Record Timestamps : Type := {
  extraccion_local : nat;
  corte_servidor : value;
}.

Record Geografia : Type := {
  cod_depto : value; nom_depto : value;
  cod_muni : value; nom_muni : value;
  cod_zona : value; nom_zona : value;
  cod_centro : value; nom_centro : value;
}.

Record Auditoria : Type := {
  estado_global : string;
  es_correcta : value;
  tiene_inconsistencias : value;
  en_verificacion : value;
  pend_verif_visual : value;
  en_espera : value;
}.

Record Estadisticas : Type := {
  censo_mesa : value;
  total_firmas : value;
  participacion_pct : value;
  votos_validos_calc : number;
  votos_blancos : number;
  votos_nulos : number;
  total_votos_calculados : number;
}.

Record Documentos : Type := {
  pdf_descargado : bool;
  pdf_nombre_local : option string;
  url_origen : value;
  url_tokenizada : value;
}.

(** The dict [json_final]. *)
Record json_final : Type := {
  id_jrv : Z;
  timestamps : Timestamps;
  geografia : Geografia;
  auditoria : Auditoria;
  estadisticas : Estadisticas;
  detalle_resultados : list candidato_entry;
  documentos : Documentos;
}.

(** What SQLite holds in a column. *)
Inductive sql_value : Type :=
| SqlNull
| SqlInteger (n : Z)
| SqlReal (f : float)
| SqlText (s : string).

(** A row of the table [scraped_data]: the INTEGER columns as SQLite
    stores what is bound to them, the text columns as bound (a number
    bound to a text column is stored as its text, which is not
    modelled); the [json] column holds the document itself rather than
    its [json.dumps] text. *)
Record scraped_data : Type := {
  col_id_jrv : Z;
  col_depto_nom : sql_value;
  col_muni_nom : sql_value;
  col_centro_nom : sql_value;
  col_estado_acta : string;
  col_votos_validos_calculados : sql_value;
  col_json : json_final;
  col_updated_at : nat;
}.

(** ** The world the scraper runs in *)

Record request : Type := {
  method : string;
  url : string;
  json_payload : option value;
}.

(** What the server answers: a status and a body ([None]: reading or
    decoding the body raises), or no answer at all. *)
Inductive response (B : Type) : Type :=
| Status (code : Z) (body : option B)
| Unreachable.
Arguments Status {B} code body.
Arguments Unreachable {B}.

Inductive level : Type := INFO | WARNING | ERROR | CRITICAL.

Inductive message : Type :=
| MsgStatus (method : string) (code : Z) (url : string)
| MsgAttempt (method url : string) (attempt : nat) (e : exn)
| MsgEmptyNavigation (context_msg : string) (attempt max_retries : nat)
| MsgNavigationFailed (context_msg : string) (e : exn)
| MsgFinalFailure (context_msg : string)
| MsgOkJRV (id_str : string)
| MsgErrorDB (id_str : string) (e : exn)
| MsgWorkerError (e : exn).

(** What the scraper does to the outside, in order; durations in
    milliseconds. *)
Inductive event : Type :=
| Jitter (lo hi : Z)
| Sleep (ms : Z)
| Request (r : request)
| Download (url : string)
| Log (l : level) (m : message)
| Print (text : string).

(** A queue item: [(mesa, ids_geo, noms_geo)]. *)
Definition work_item : Type := value * geo * geo.

(** What becomes of writing a file: the content is stored; the file
    cannot be opened and nothing is written; or the file is opened, and
    the write raises after the given number of bytes. *)
Inductive written : Type :=
| Stored
| NotOpened
| Cut (bytes : nat).

(** [api] and [cdn] answer the [sent]-th request of the run, and [disk]
    says what becomes of a write to a path once [sent] requests are out;
    they are fixed, so the remote dataset and the disk can be anything
    but do not depend on what the scraper stores.  The store is a finite
    map on the primary key; storage failures other than a value SQLite
    cannot bind are not modelled. *)
Record world : Type := {
  api : nat -> request -> response value;
  cdn : nat -> string -> response string;
  disk : nat -> string -> written;
  sent : nat;
  clock : nat;
  db : gmap Z scraped_data;
  fs : gmap string string;
  queue : list work_item;
  trace : list event;
}.

Definition set_sent (n : nat) (w : world) : world :=
  {| api := api w; cdn := cdn w; disk := disk w; sent := n; clock := clock w;
     db := db w; fs := fs w; queue := queue w; trace := trace w |}.
Definition set_clock (n : nat) (w : world) : world :=
  {| api := api w; cdn := cdn w; disk := disk w; sent := sent w; clock := n;
     db := db w; fs := fs w; queue := queue w; trace := trace w |}.
Definition set_db (d : gmap Z scraped_data) (w : world) : world :=
  {| api := api w; cdn := cdn w; disk := disk w; sent := sent w; clock := clock w;
     db := d; fs := fs w; queue := queue w; trace := trace w |}.
Definition set_fs (f : gmap string string) (w : world) : world :=
  {| api := api w; cdn := cdn w; disk := disk w; sent := sent w; clock := clock w;
     db := db w; fs := f; queue := queue w; trace := trace w |}.
Definition set_queue (q : list work_item) (w : world) : world :=
  {| api := api w; cdn := cdn w; disk := disk w; sent := sent w; clock := clock w;
     db := db w; fs := fs w; queue := q; trace := trace w |}.
Definition set_trace (t : list event) (w : world) : world :=
  {| api := api w; cdn := cdn w; disk := disk w; sent := sent w; clock := clock w;
     db := db w; fs := fs w; queue := queue w; trace := t |}.
Definition set_disk (d : nat -> string -> written) (w : world) : world :=
  {| api := api w; cdn := cdn w; disk := d; sent := sent w; clock := clock w;
     db := db w; fs := fs w; queue := queue w; trace := trace w |}.

(** ** The monad of coroutines: state and exceptions *)

Definition M (A : Type) : Type := world -> result A * world.

#[global] Instance M_ret : MRet M := fun A a w => (Ok a, w).
#[global] Instance M_bind : MBind M := fun A B k m w =>
  match m w with
  | (Ok a, w') => k a w'
  | (Raise e, w') => (Raise e, w')
  end.

Definition raise {A} (e : exn) : M A := fun w => (Raise e, w).

Definition lift {A} (r : result A) : M A := fun w => (r, w).

(** [try: body / except Exception as e: handler e]. *)
Definition try_except {A} (body : M A) (handler : exn -> M A) : M A := fun w =>
  match body w with
  | (Ok a, w') => (Ok a, w')
  | (Raise e, w') => handler e w'
  end.

(** Reading and changing the world. *)
Definition gets {A} (f : world -> A) : M A := fun w => (Ok (f w), w).
Definition modify (f : world -> world) : M unit := fun w => (Ok tt, f w).

Definition emit (e : event) : M unit :=
  modify (fun w => set_trace ((trace w ++ [e])%list) w).

Definition sleep (ms : Z) : M unit := emit (Sleep ms).
Definition sleep_uniform (lo hi : Z) : M unit := emit (Jitter lo hi).
Definition log (l : level) (m : message) : M unit := emit (Log l m).

(** [datetime.now()]. *)
Definition now : M nat :=
  t ← gets clock;
  modify (fun w => set_clock (S (clock w)) w);;
  mret t.

(** [for i in range(start, start + count): ...] whose body may [return]:
    [Some a] returns [a], [None] goes on; [orelse] is what follows the
    loop. *)
Fixpoint for_range {A} (start count : nat) (body : nat -> M (option A))
    (orelse : M A) : M A :=
  match count with
  | O => orelse
  | S count' =>
      r ← body start;
      match r with
      | Some a => mret a
      | None => for_range (S start) count' body orelse
      end
  end.

(** ** Persistence store *)

(** A parameter as sqlite3 binds it: [None] as NULL, an [int] of 64
    bits (so a [bool]) as INTEGER, a [float] as REAL, NaN as NULL, a
    [str] as TEXT. *)
Definition int64 (n : Z) : bool := (- 2 ^ 63 <=? n) && (n <? 2 ^ 63).

Definition bind (v : value) : result sql_value :=
  match v with
  | VNone => Ok SqlNull
  | VBool b => Ok (SqlInteger (Z.b2z b))
  | VInt n => if int64 n then Ok (SqlInteger n) else Raise OverflowError
  | VFloat f => Ok (if PrimFloat.is_nan f then SqlNull else SqlReal f)
  | VStr s => Ok (SqlText s)
  | VList _ | VDict _ => Raise BindError
  end.

(** A number bound to an INTEGER column: a REAL that is a whole number
    strictly inside the 64-bit range is stored as that INTEGER. *)
Definition integer_column (x : number) : result sql_value :=
  bound ← bind (Py.value_of x);
  Ok (match bound with
      | SqlReal f =>
          match Float.to_int f with
          | Ok n =>
              if Float.eq_int f n && (- 2 ^ 63 <? n) && (n <? 2 ^ 63 - 1)
              then SqlInteger n else bound
          | Raise _ => bound
          end
      | _ => bound
      end).

(** [init_db]: [CREATE TABLE IF NOT EXISTS] keeps the rows there are. *)
Definition init_db (self : CNE_Scraper_Async) : M unit := mret tt.

Definition verify_db_existance (self : CNE_Scraper_Async) (id_jrv : Z) : M bool :=
  _ ← lift (bind (VInt id_jrv));
  gets (fun w => bool_decide (is_Some (db w !! id_jrv))).

(** [INSERT OR REPLACE INTO scraped_data ... VALUES (...)] and commit:
    the parameters are bound in order, the first that cannot be bound
    raising. *)
Definition insert_or_replace (self : CNE_Scraper_Async) (id_jrv : Z)
    (depto_nom muni_nom centro_nom : value) (estado_acta : string)
    (votos_validos_calculados : number) (json : json_final) (updated_at : nat)
    : M unit :=
  _ ← lift (bind (VInt id_jrv));
  depto_nom ← lift (bind depto_nom);
  muni_nom ← lift (bind muni_nom);
  centro_nom ← lift (bind centro_nom);
  votos ← lift (integer_column votos_validos_calculados);
  modify (fun w =>
            set_db (<[id_jrv := {| col_id_jrv := id_jrv;
                                   col_depto_nom := depto_nom;
                                   col_muni_nom := muni_nom;
                                   col_centro_nom := centro_nom;
                                   col_estado_acta := estado_acta;
                                   col_votos_validos_calculados := votos;
                                   col_json := json;
                                   col_updated_at := updated_at |}]> (db w)) w).

(** ** Fetch client *)

(** [session.get] / [session.post] on the API: the request goes out and
    the answer comes back. *)
Definition send (r : request) : M (response value) :=
  answer ← gets (fun w => api w (sent w) r);
  modify (fun w => set_sent (S (sent w)) (set_trace (trace w ++ [Request r]) w));;
  mret answer.

(** One pass through the [try] of [fetch]: [Some v] is [return v],
    [None] falls through to the next attempt. *)
Definition fetch_attempt (self : CNE_Scraper_Async) (method url : string)
    (json_payload : option value) (attempt : nat) : M (option value) :=
  try_except
    (sleep_uniform 400 800;;
     if String.eqb method "GET" then
       r ← send {| method := "GET"; url := url; json_payload := None |};
       match r with
       | Unreachable => raise ClientError
       | Status code body =>
           if code =? 200 then
             match body with
             | Some v => mret (Some v)
             | None => raise ClientError
             end
           else if (code =? 404) || (code =? 204) then mret (Some VNone)
           else log WARNING (MsgStatus "GET" code url);; mret None
       end
     else if String.eqb method "POST" then
       r ← send {| method := "POST"; url := url; json_payload := json_payload |};
       match r with
       | Unreachable => raise ClientError
       | Status code body =>
           if code =? 200 then
             match body with
             | Some v => mret (Some v)
             | None => raise ClientError
             end
           else if code =? 204 then mret (Some VNone)
           else log WARNING (MsgStatus "POST" code url);; mret None
       end
     else mret None)
    (fun e =>
       log ERROR (MsgAttempt method url (attempt + 1) e);;
       sleep (1000 * (Z.of_nat attempt + 1));;
       mret None).

Definition fetch (self : CNE_Scraper_Async) (method url : string)
    (json_payload : option value) (retries : nat) : M value :=
  for_range 0 retries (fetch_attempt self method url json_payload) (mret VNone).

Definition is_not_None (v : value) : bool :=
  match v with VNone => false | _ => true end.

Definition max_retries : nat := 5.

Definition navigation_attempt (self : CNE_Scraper_Async) (url context_msg : string)
    (attempt : nat) : M (option value) :=
  try_except
    (data ← fetch self "GET" url None 1;
     if is_not_None data then mret (Some data)
     else
       log WARNING (MsgEmptyNavigation context_msg (attempt + 1) max_retries);;
       sleep (2000 * (Z.of_nat attempt + 1));;
       mret None)
    (fun e =>
       log ERROR (MsgNavigationFailed context_msg e);;
       sleep 2000;;
       mret None).

Definition fetch_navigation_robust (self : CNE_Scraper_Async)
    (url context_msg : string) : M value :=
  for_range 0 max_retries (navigation_attempt self url context_msg)
    (log CRITICAL (MsgFinalFailure context_msg);; mret (VList [])).

(** ** Asset store *)

(** [os.path.exists(p) and os.path.getsize(p) > 0]. *)
Definition exists_nonempty (p : string) (w : world) : bool :=
  match fs w !! p with
  | Some content => (0 <? String.length content)%nat
  | None => false
  end.

Definition path_exists (p : string) (w : world) : bool :=
  bool_decide (is_Some (fs w !! p)).

(** [session.get(url, timeout=20)]: aiohttp refuses a URL that is not a
    str before anything is sent. *)
Definition download (url : value) : M (response string) :=
  match url with
  | VStr u =>
      answer ← gets (fun w => cdn w (sent w) u);
      modify (fun w => set_sent (S (sent w)) (set_trace (trace w ++ [Download u]) w));;
      mret answer
  | _ => raise TypeError
  end.

(** [async with aiofiles.open(p, mode="wb") as f: await f.write(content)]:
    opening creates or empties the file. *)
Definition write_file (p content : string) : M unit :=
  outcome ← gets (fun w => disk w (sent w) p);
  match outcome with
  | Stored => modify (fun w => set_fs (<[p := content]> (fs w)) w)
  | NotOpened => raise OSError
  | Cut bytes =>
      modify (fun w => set_fs (<[p := String.substring 0 bytes content]> (fs w)) w);;
      raise OSError
  end.

(** [descargar_asset] up to its first await: [Some r] is [return r],
    [None] goes on to the request. *)
Definition asset_check (url : value) (full_path filename : string)
    : M (option (option string)) :=
  if negb (Py.truthy url) then mret (Some None)
  else
    skip ← gets (exists_nonempty full_path);
    mret (if skip : bool then Some (Some filename) else None).

(** [descargar_asset] from its first await on: the [try] statement. *)
Definition asset_fetch (url : value) (full_path filename : string)
    : M (option string) :=
  try_except
    (r ← download url;
     match r with
     | Unreachable => raise ClientError
     | Status code body =>
         if code =? 200 then
           match body with
           | Some content => write_file full_path content;; mret (Some filename)
           | None => raise ClientError
           end
         else mret None
     end)
    (fun _ => mret None).

Definition descargar_asset (self : CNE_Scraper_Async) (url : value)
    (folder filename : string) : M (option string) :=
  let full_path := Str.path_join folder filename in
  r ← asset_check url full_path filename;
  match r with
  | Some returned => mret returned
  | None => asset_fetch url full_path filename
  end.

(** ** Record builder: [procesar_mesa_task] *)

(** [mesa.get("numero") or mesa.get("jrv")]. *)
Definition station_id (mesa : value) : result value :=
  numero ← Py.get mesa "numero" VNone;
  if Py.truthy numero then Ok numero else Py.get mesa "jrv" VNone.

(** One round of the candidates loop: the entry appended to
    [lista_candidatos] and the two downloads appended to
    [tasks_imagenes], as (url, filename). *)
Definition procesar_candidato (cand : value)
    : result (candidato_entry * list (value * string)) :=
  p_id ← Py.get cand "parpo_id" (VStr "0");
  c_cod ← Py.get cand "cddto_codigo" (VStr "000");
  let f_partido := "Partido_" +:+ Py.str p_id +:+ ".png" in
  let f_candidato := "Cand_" +:+ Py.str p_id +:+ "_" +:+ Py.str c_cod +:+ ".png" in
  parpo_link_logo ← Py.get cand "parpo_link_logo" VNone;
  cddto_link_logo ← Py.get cand "cddto_link_logo" VNone;
  parpo_id_int ← Py.get cand "parpo_id_int" (VInt 0);
  cddto_nombres ← Py.get cand "cddto_nombres" VNone;
  parpo_nombre ← Py.get cand "parpo_nombre" VNone;
  cand_votos ← Py.get cand "votos" (VInt 0);
  parpo_color ← Py.get cand "parpo_color" VNone;
  Ok ({| id_partido_string := p_id;
         id_partido_int := parpo_id_int;
         id_candidato := c_cod;
         nombre_candidato := cddto_nombres;
         nombre_partido := parpo_nombre;
         votos := cand_votos;
         color_hex := parpo_color;
         imgs := {| partido := f_partido; candidato := f_candidato |} |},
      [(parpo_link_logo, f_partido); (cddto_link_logo, f_candidato)]).

Fixpoint procesar_candidatos (cands : list value)
    : result (list candidato_entry * list (value * string)) :=
  match cands with
  | [] => Ok ([], [])
  | cand :: rest =>
      first ← procesar_candidato cand;
      others ← procesar_candidatos rest;
      Ok (fst first :: fst others, (snd first ++ snd others)%list)
  end.

(** Awaiting the gathered [tasks_imagenes]: every coroutine runs up to
    its first await, so that each has looked at its url and at the disk
    before any of them writes; those that go on send their requests,
    and write their files, in list order. *)
Fixpoint gather_checks (folder : string) (tasks : list (value * string))
    : M (list (value * string)) :=
  match tasks with
  | [] => mret []
  | (u, filename) :: rest =>
      r ← asset_check u (Str.path_join folder filename) filename;
      pending ← gather_checks folder rest;
      mret (match r with
            | Some _ => pending
            | None => (u, filename) :: pending
            end)
  end.

Fixpoint gather_fetches (folder : string) (pending : list (value * string))
    : M unit :=
  match pending with
  | [] => mret tt
  | (u, filename) :: rest =>
      asset_fetch u (Str.path_join folder filename) filename;;
      gather_fetches folder rest
  end.

Definition gather_assets (self : CNE_Scraper_Async) (folder : string)
    (tasks : list (value * string)) : M unit :=
  pending ← gather_checks folder tasks;
  gather_fetches folder pending.

(** [url_pdf.split("?")[0] if url_pdf else None]. *)
Definition strip_token (url_pdf : value) : result value :=
  if Py.truthy url_pdf then
    match url_pdf with
    | VStr s => Ok (VStr (Str.before "?" s))
    | _ => Raise AttributeError
    end
  else Ok VNone.

Definition payload (self : CNE_Scraper_Async) (codigos : list value) (mesa : Z)
    (ids_geo : geo) : value :=
  VDict [("codigos", VList codigos);
         ("tipco", VStr (NIVEL self));
         ("mesa", VInt mesa);
         ("depto", depto ids_geo);
         ("mcpio", muni ids_geo);
         ("zona", zona ids_geo);
         ("pesto", centro ids_geo);
         ("comuna", VStr "00")].

(** The request plan of [procesar_mesa_task]: the three main calls
    (gathered, here in list order), a short pause, then the blank-vote
    and the null-vote call.  Yields
    [(data_val, data_suf, data_res, data_blancos, data_nulos)]. *)
Definition station_data : Type := value * value * value * value * value.

Definition fetch_station_data (self : CNE_Scraper_Async) (n : Z) (ids_geo : geo)
    : M station_data :=
  let payload_base := payload self [] n ids_geo in
  let payload_blancos := payload self [VStr "996"] n ids_geo in
  let payload_nulos := payload self [VStr "997"; VStr "998"] n ids_geo in
  data_val ← fetch self "POST"
    (BASE_API self +:+ "/presentacion-resultados/actas-validas") (Some payload_base) 3;
  data_suf ← fetch self "POST"
    (BASE_API self +:+ "/presentacion-resultados/sufragantes") (Some payload_base) 3;
  data_res ← fetch self "POST"
    (BASE_API self +:+ "/presentacion-resultados") (Some payload_base) 3;
  sleep 100;;
  data_blancos ← fetch self "POST" (URL_VOTOS self) (Some payload_blancos) 3;
  data_nulos ← fetch self "POST" (URL_VOTOS self) (Some payload_nulos) 3;
  mret (data_val, data_suf, data_res, data_blancos, data_nulos).

(** The rest of [procesar_mesa_task], from "Validation checks" on: the
    record is assembled from the five answers and saved. *)
Definition build_record (self : CNE_Scraper_Async) (mesa : value)
    (ids_geo noms_geo : geo) (n : Z) (id_str : string) (data : station_data)
    : M unit :=
  let data_val := Py.or (fst (fst (fst (fst data)))) (VDict []) in
  let data_suf := Py.or (snd (fst (fst (fst data)))) (VDict []) in
  let data_res := Py.or (snd (fst (fst data))) (VDict []) in
  let data_blancos := snd (fst data) in
  let data_nulos := snd data in
  votos_blancos ← lift (extraer_votos data_blancos);
  votos_nulos ← lift (extraer_votos data_nulos);
  (* Process Candidates *)
  has_candidatos ← lift (Py.contains "candidatos" data_res);
  built ←
    (if has_candidatos : bool then
       lift (candidatos ← Py.getitem data_res "candidatos";
             cands ← Py.iter candidatos;
             procesar_candidatos cands)
     else mret ([], []));
  let lista_candidatos := fst built in
  let tasks_imagenes := snd built in
  gather_assets self (img_folder self) tasks_imagenes;;
  (* Calculations and PDF Download *)
  total_validos ← lift (Py.sum (map votos lista_candidatos));
  total_urna ← lift (partial ← Py.plus total_validos votos_blancos;
                     Py.plus partial votos_nulos);
  url_pdf ← lift (Py.get mesa "nombre_archivo" VNone);
  pdf_local ←
    (if Py.truthy url_pdf then
       let pdf_name := "HND_2025_JRV_" +:+ Str.pad5 n +:+ ".pdf" in
       descargar_asset self url_pdf (pdf_dir self) pdf_name;;
       there ← gets (path_exists (Str.path_join (pdf_dir self) pdf_name));
       mret (if there : bool then Some pdf_name else None)
     else mret None);
  (* Construct Final JSON *)
  extraccion ← now;
  fecha_corte ← lift (Py.get data_res "fecha_corte" VNone);
  publicadas ← lift (Py.get data_val "publicadas" VNone);
  correctas ← lift (Py.get data_val "correctas" (VInt 0));
  inconsistencias ← lift (Py.get data_val "inconsistencias" (VInt 0));
  verificacion ← lift (Py.get data_val "verificacion" (VInt 0));
  pendientes ← lift (Py.get data_val "pendientesVerificacionVisual" (VInt 0));
  espera ← lift (Py.get data_val "espera" (VInt 0));
  sufragantes ← lift (Py.get data_suf "sufragantes" (VInt 0));
  cantidadDeFirmas ← lift (Py.get data_suf "cantidadDeFirmas" (VInt 0));
  participacion ← lift (Py.get data_suf "participacion" (VInt 0));
  origen ← lift (strip_token url_pdf);
  let doc :=
    {| id_jrv := n;
       timestamps :=
         {| extraccion_local := extraccion; corte_servidor := fecha_corte |};
       geografia :=
         {| cod_depto := depto ids_geo; nom_depto := depto noms_geo;
            cod_muni := muni ids_geo; nom_muni := muni noms_geo;
            cod_zona := zona ids_geo; nom_zona := zona noms_geo;
            cod_centro := centro ids_geo; nom_centro := centro noms_geo |};
       auditoria :=
         {| estado_global :=
              if Py.eq_one publicadas then "Publicada" else "No Publicada";
            es_correcta := correctas;
            tiene_inconsistencias := inconsistencias;
            en_verificacion := verificacion;
            pend_verif_visual := pendientes;
            en_espera := espera |};
       estadisticas :=
         {| censo_mesa := sufragantes;
            total_firmas := cantidadDeFirmas;
            participacion_pct := participacion;
            votos_validos_calc := total_validos;
            votos_blancos := votos_blancos;
            votos_nulos := votos_nulos;
            total_votos_calculados := total_urna |};
       detalle_resultados := lista_candidatos;
       documentos :=
         {| pdf_descargado := bool_decide (is_Some pdf_local);
            pdf_nombre_local := pdf_local;
            url_origen := origen;
            url_tokenizada := url_pdf |} |} in
  (* Save to Database *)
  try_except
    (updated ← now;
     insert_or_replace self n (depto noms_geo) (muni noms_geo) (centro noms_geo)
       (estado_global (auditoria doc)) total_validos doc updated;;
     log INFO (MsgOkJRV id_str))
    (fun e => log ERROR (MsgErrorDB id_str e)).

Definition procesar_mesa_task (self : CNE_Scraper_Async) (mesa : value)
    (ids_geo noms_geo : geo) : M unit :=
  id_jrv ← lift (station_id mesa);
  if negb (Py.truthy id_jrv) then mret tt
  else
    let id_str := Py.str id_jrv in
    n ← lift (Str.to_int id_str);
    (* Skip if already in DB *)
    found ← verify_db_existance self n;
    if found : bool then mret tt
    else
      data ← fetch_station_data self n ids_geo;
      build_record self mesa ids_geo noms_geo n id_str data.

(** ** Worker *)

(** One round of the loop of [worker], for the item [queue.get()]
    yielded: whatever the handler raises is logged and the loop goes on. *)
Definition worker_item (self : CNE_Scraper_Async) (item : work_item) : M unit :=
  try_except
    (let mesa := fst (fst item) in
     let ids_geo := snd (fst item) in
     let noms_geo := snd item in
     sleep_uniform 500 1500;;
     procesar_mesa_task self mesa ids_geo noms_geo)
    (fun e => log ERROR (MsgWorkerError e)).

Fixpoint worker (self : CNE_Scraper_Async) (items : list work_item) : M unit :=
  match items with
  | [] => mret tt
  | item :: rest => worker_item self item;; worker self rest
  end.

(** ** Navigator: the traversal of [main] *)

Definition deptos_list : list (string * string) :=
  [("01", "Atlantida"); ("02", "Colon"); ("03", "Comayagua"); ("04", "Copan");
   ("05", "Cortes"); ("06", "Choluteca"); ("07", "El_Paraiso");
   ("08", "Francisco_Morazan"); ("09", "Gracias_a_Dios"); ("10", "Intibuca");
   ("11", "Islas_de_la_Bahia"); ("12", "La_Paz"); ("13", "Lempira");
   ("14", "Ocotepeque"); ("15", "Olancho"); ("16", "Santa_Barbara");
   ("17", "Valle"); ("18", "Yoro"); ("20", "Voto_Exterior")].

Definition MAPA_ZONAS_DEFAULT : list (string * value) :=
  [("01", VStr "URBANA"); ("02", VStr "RURAL")].

(** [MAPA_ZONAS_DEFAULT.get(id_zona, "Desconocida")]: the keys are str,
    so only a str can be found; the key is hashed first. *)
Definition mapa_zonas_get (id_zona : value) : result value :=
  if Py.hashable id_zona then
    Ok (match id_zona with
        | VStr code =>
            match Py.lookup MAPA_ZONAS_DEFAULT code with
            | Some label => label
            | None => VStr "Desconocida"
            end
        | _ => VStr "Desconocida"
        end)
  else Raise TypeError.

(** [zona.get("cod_zona") or zona.get("id_zona")]. *)
Definition zona_id (zona : value) : result value :=
  cod ← Py.get zona "cod_zona" VNone;
  if Py.truthy cod then Ok cod else Py.get zona "id_zona" VNone.

(** [zona.get("zona") or MAPA_ZONAS_DEFAULT.get(id_zona, "Desconocida")]. *)
Definition zona_nombre (zona id_zona : value) : result value :=
  label ← Py.get zona "zona" VNone;
  if Py.truthy label then Ok label else mapa_zonas_get id_zona.

(** [for x in xs: body x]. *)
Fixpoint for_each {A} (xs : list A) (body : A -> M unit) : M unit :=
  match xs with
  | [] => mret tt
  | x :: rest => body x;; for_each rest body
  end.

Definition for_in (v : value) (body : value -> M unit) : M unit :=
  xs ← lift (Py.iter v);
  for_each xs body.

(** [await queue.put(item)]; the bound of the queue only delays the
    producer and is not modelled. *)
Definition queue_put (item : work_item) : M unit :=
  modify (fun w => set_queue ((queue w ++ [item])%list) w).

Definition actas_documentos (self : CNE_Scraper_Async) (parts : list string) : string :=
  BASE_API self +:+ "/actas-documentos/" +:+ NIVEL self +:+ "/"
  +:+ String.concat "/" parts.

(** The body of [for mesa in mesas]. *)
Definition visit_mesa (self : CNE_Scraper_Async) (ids_geo noms_geo : geo)
    (mesa : value) : M unit :=
  id_jrv ← lift (station_id mesa);
  seen ←
    (if Py.truthy id_jrv then
       n ← lift (Py.int id_jrv);
       verify_db_existance self n
     else mret false);
  if seen : bool then mret tt
  else queue_put (mesa, ids_geo, noms_geo).

(** The body of [for centro in centros]. *)
Definition visit_centro (self : CNE_Scraper_Async) (depto_id depto_nombre : string)
    (id_muni nom_muni id_zona nom_zona centro : value) : M unit :=
  id_centro ← lift (Py.getitem centro "id_puesto");
  nom_centro ← lift (Py.getitem centro "puesto");
  mesas ← fetch_navigation_robust self
    (actas_documentos self
       [depto_id; Py.str id_muni; Py.str id_zona; Py.str id_centro; "mesas"])
    ("Polling Stations in " +:+ Py.str nom_centro);
  for_in mesas
    (visit_mesa self
       {| depto := VStr depto_id; muni := id_muni; zona := id_zona; centro := id_centro |}
       {| depto := VStr depto_nombre; muni := nom_muni; zona := nom_zona;
          centro := nom_centro |}).

(** The body of [for zona in zonas]. *)
Definition visit_zona (self : CNE_Scraper_Async) (depto_id depto_nombre : string)
    (id_muni nom_muni zona : value) : M unit :=
  id_zona ← lift (zona_id zona);
  nom_zona ← lift (zona_nombre zona id_zona);
  centros ← fetch_navigation_robust self
    (actas_documentos self [depto_id; Py.str id_muni; Py.str id_zona; "puestos"])
    ("Centers in " +:+ Py.str nom_zona);
  for_in centros
    (visit_centro self depto_id depto_nombre id_muni nom_muni id_zona nom_zona).

(** The body of [for muni in munis]. *)
Definition visit_muni (self : CNE_Scraper_Async) (depto_id depto_nombre : string)
    (muni : value) : M unit :=
  id_muni ← lift (Py.getitem muni "id_municipio");
  nom_muni ← lift (Py.getitem muni "municipio");
  zonas ← fetch_navigation_robust self
    (actas_documentos self [depto_id; Py.str id_muni; "00"; "zonas"])
    ("Zones of " +:+ Py.str nom_muni);
  emit (Print ("Processing Department: " +:+ depto_nombre +:+ " Municipality: "
               +:+ Py.str nom_muni));;
  for_in zonas (visit_zona self depto_id depto_nombre id_muni nom_muni).

(** The body of [for depto in deptos_list]. *)
Definition visit_depto (self : CNE_Scraper_Async) (depto : string * string) : M unit :=
  let depto_id := fst depto in
  let depto_nombre := snd depto in
  munis ← fetch_navigation_robust self
    (actas_documentos self [depto_id; "municipios"])
    ("Municipalities of " +:+ depto_nombre);
  emit (Print ("Processing Department: " +:+ depto_nombre));;
  for_in munis (visit_muni self depto_id depto_nombre).

Definition navigate (self : CNE_Scraper_Async) : M unit :=
  for_each deptos_list (visit_depto self).

(** [main], on the schedule where the workers take the items once the
    hierarchy is traversed, in queue order. *)
Definition main (self : CNE_Scraper_Async) : M unit :=
  init_db self;;
  emit (Print ("--- Starting Async Scraper ("
               +:+ Str.decimal (Z.of_nat (NUM_WORKERS self)) +:+ " workers) ---"));;
  navigate self;;
  emit (Print "Hierarchy traversed. Processing job queue...");;
  items ← gets queue;
  modify (set_queue []);;
  worker self items.

(** * Specifications *)

(** ** Vote-count extraction *)

(** The values that count as numbers, and those that are integers. *)
Definition is_number (v : value) : bool :=
  match Py.number_of v with
  | Some _ => true
  | None => false
  end.

Definition is_count (v : value) : bool :=
  match v with
  | VInt _ | VBool _ => true
  | _ => false
  end.

(** The integer a count stands for. *)
Definition count_of (v : value) : Z :=
  match v with
  | VInt n => n
  | VBool b => Z.b2z b
  | _ => 0
  end.

(** An item's [votos] field, a missing field contributing 0. *)
Definition votos_field (item : value) : value :=
  match item with
  | VDict d =>
      match Py.lookup d "votos" with
      | Some v => v
      | None => VInt 0
      end
  | _ => VInt 0
  end.

(** The sum of the items' [votos], as Python sums numbers. *)
Definition sum_votos_fields (items : list value) : result number :=
  Py.sum (map votos_field items).

Definition items_of (collection : value) : list value :=
  match Py.iter collection with
  | Ok items => items
  | Raise _ => []
  end.

(** Vote-count extraction in the words of the specification: absent
    gives 0, a bare number that number as an integer, a list the sum of
    its items' [votos], a dict with [resultados] the sum over that
    collection, a dict with [votos] that value (added to 0), anything
    else 0. *)
Definition extraer_votos_spec (resp : value) : result number :=
  match resp with
  | VNone => Ok (Int 0)
  | VInt n => Ok (Int n)
  | VBool b => Ok (Int (Z.b2z b))
  | VFloat f => n ← Float.to_int f; Ok (Int n)
  | VList items => sum_votos_fields items
  | VDict d =>
      match Py.lookup d "resultados" with
      | Some collection => sum_votos_fields (items_of collection)
      | None =>
          match Py.lookup d "votos" with
          | Some v => Py.sum [v]
          | None => Ok (Int 0)
          end
      end
  | VStr _ => Ok (Int 0)
  end.

(** A line item the extraction can read: a keyed object whose [votos],
    when present, is a number. *)
Definition line_item (item : value) : bool :=
  match item with
  | VDict d =>
      match Py.lookup d "votos" with
      | Some v => is_number v
      | None => true
      end
  | _ => false
  end.

Definition line_items (collection : value) : bool :=
  match Py.iter collection with
  | Ok items => forallb line_item items
  | Raise _ => false
  end.

(** The responses whose nested parts have the shape the extraction
    expects. *)
Definition well_shaped (resp : value) : bool :=
  match resp with
  | VList items => forallb line_item items
  | VDict d =>
      match Py.lookup d "resultados" with
      | Some collection => line_items collection
      | None =>
          match Py.lookup d "votos" with
          | Some v => is_number v
          | None => true
          end
      end
  | _ => true
  end.

(** ** Fetch client *)

(** What one attempt of [fetch] makes of the server's answer: return a
    payload (absent for a no-data status), or go on to the next attempt
    after the listed events. *)
Inductive verdict : Type :=
| Return (v : value)
| Retry (events : list event).

(** A request that raised: logged, then a backoff of [attempt] seconds
    (attempts counted from 1). *)
Definition backoff (method url : string) (attempt : nat) : list event :=
  [Log ERROR (MsgAttempt method url (attempt + 1) ClientError);
   Sleep (1000 * (Z.of_nat attempt + 1))].

(** The statuses that mean "no data": 204, and 404 on a GET. *)
Definition no_data_status (method : string) (code : Z) : bool :=
  (code =? 204) || ((code =? 404) && String.eqb method "GET").

Definition classify (method url : string) (attempt : nat)
    (answer : response value) : verdict :=
  match answer with
  | Status code body =>
      if code =? 200 then
        match body with
        | Some v => Return v
        | None => Retry (backoff method url attempt)
        end
      else if no_data_status method code then Return VNone
      else Retry [Log WARNING (MsgStatus method code url)]
  | Unreachable => Retry (backoff method url attempt)
  end.

(** The request [fetch] sends: a GET carries no body. *)
Definition request_of (method url : string) (json_payload : option value) : request :=
  {| method := method; url := url;
     json_payload := if String.eqb method "GET" then None else json_payload |}.

(** The world after the events [events] and [requests] more requests. *)
Definition advance (requests : nat) (events : list event) (w : world) : world :=
  set_sent (requests + sent w)%nat (set_trace ((trace w ++ events)%list) w).

(** [fetch] as a table of verdicts: attempt after attempt, jitter,
    request, verdict; absent once the attempts are spent. *)
Fixpoint fetch_spec (method url : string) (json_payload : option value)
    (attempt remaining : nat) (w : world) : value * world :=
  match remaining with
  | O => (VNone, w)
  | S remaining' =>
      let r := request_of method url json_payload in
      match classify method url attempt (api w (sent w) r) with
      | Return v => (v, advance 1 [Jitter 400 800; Request r] w)
      | Retry events =>
          fetch_spec method url json_payload (S attempt) remaining'
            (advance 1 (Jitter 400 800 :: Request r :: events) w)
      end
  end.

(** ** Navigation fetch *)

(** The discovery request for [url]. *)
Definition discovery (url : string) : request :=
  {| method := "GET"; url := url; json_payload := None |}.

(** An answer that leaves a navigation attempt without data: anything
    but a 200 whose payload is not null. *)
Definition no_data (url : string) (answer : response value) : bool :=
  match classify "GET" url 0 answer with
  | Return v => negb (is_not_None v)
  | Retry _ => true
  end.

(** What a navigation attempt without data leaves in the trace: the
    single attempt of [fetch], the warning, the backoff of attempt x 2 s
    (attempts counted from 1). *)
Definition empty_attempt (url context_msg : string) (attempt : nat)
    (answer : response value) : list event :=
  ([Jitter 400 800; Request (discovery url)]
   ++ match classify "GET" url 0 answer with
      | Return _ => []
      | Retry events => events
      end
   ++ [Log WARNING (MsgEmptyNavigation context_msg (attempt + 1) max_retries);
       Sleep (2000 * (Z.of_nat attempt + 1))])%list.

(** The trace of [remaining] attempts without data, from the given
    attempt and request number on, and of the final failure. *)
Fixpoint branch_failure (url context_msg : string)
    (api : nat -> request -> response value) (attempt number remaining : nat)
    : list event :=
  match remaining with
  | O => [Log CRITICAL (MsgFinalFailure context_msg)]
  | S remaining' =>
      (empty_attempt url context_msg attempt (api number (discovery url))
       ++ branch_failure url context_msg api (S attempt) (S number) remaining')%list
  end.

(** ** Zone names *)

(** The label the static table gives a zone code, "Desconocida" for a
    code it does not list. *)
Definition zona_por_codigo (id_zona : value) : value :=
  match id_zona with
  | VStr code =>
      match Py.lookup MAPA_ZONAS_DEFAULT code with
      | Some label => label
      | None => VStr "Desconocida"
      end
  | _ => VStr "Desconocida"
  end.

(** ** Station numbers *)

(** The value of a decimal numeral read after the accumulator [acc]. *)
Fixpoint uint_value (acc : Z) (d : Decimal.uint) : Z :=
  match d with
  | Decimal.Nil => acc
  | Decimal.D0 d' => uint_value (10 * acc + 0) d'
  | Decimal.D1 d' => uint_value (10 * acc + 1) d'
  | Decimal.D2 d' => uint_value (10 * acc + 2) d'
  | Decimal.D3 d' => uint_value (10 * acc + 3) d'
  | Decimal.D4 d' => uint_value (10 * acc + 4) d'
  | Decimal.D5 d' => uint_value (10 * acc + 5) d'
  | Decimal.D6 d' => uint_value (10 * acc + 6) d'
  | Decimal.D7 d' => uint_value (10 * acc + 7) d'
  | Decimal.D8 d' => uint_value (10 * acc + 8) d'
  | Decimal.D9 d' => uint_value (10 * acc + 9) d'
  end.

(** The characters of a printed integer. *)
Definition is_numeral_char (c : ascii) : bool :=
  match Str.digit_of c with
  | Some _ => true
  | None => Ascii.eqb c "-"
  end.

(** The payload's station id stands for the number [n]: it is the int
    [n] or a str that [int] reads as [n]. *)
Definition carries_number (id_jrv : value) (n : Z) : Prop :=
  id_jrv = VInt n \/ exists s, id_jrv = VStr s /\ Str.to_int s = Ok n.

(** The station payload [mesa] is that of a stored station: its id
    stands for a 64-bit number that is a key of the store. *)
Definition stored_station (w : world) (mesa : value) : Prop :=
  exists id_jrv n,
    station_id mesa = Ok id_jrv /\ Py.truthy id_jrv = true /\
    carries_number id_jrv n /\ int64 n = true /\ is_Some (db w !! n).

(** ** What a persisted record must satisfy *)

Definition sum_counts (vs : list value) : Z :=
  foldr (fun v acc => count_of v + acc) 0 vs.

(** The totals of a row are the computed ones: the valid votes are the
    sum of the candidates' votes, the column holds them as SQLite
    stores them, and the total adds the blank and the null tally to
    them, all in Python's arithmetic; on integer counts these are the
    integer sums. *)
Definition totals_computed (row : scraped_data) : Prop :=
  let doc := col_json row in
  let stats := estadisticas doc in
  let candidate_votes := map votos (detalle_resultados doc) in
  Py.sum candidate_votes = Ok (votos_validos_calc stats) /\
  integer_column (votos_validos_calc stats)
  = Ok (col_votos_validos_calculados row) /\
  (partial ← Py.plus (votos_validos_calc stats) (votos_blancos stats);
   Py.plus partial (votos_nulos stats)) = Ok (total_votos_calculados stats) /\
  (forallb is_count candidate_votes = true ->
   votos_validos_calc stats = Int (sum_counts candidate_votes) /\
   col_votos_validos_calculados row = SqlInteger (sum_counts candidate_votes) /\
   forall blancos nulos,
     votos_blancos stats = Int blancos -> votos_nulos stats = Int nulos ->
     total_votos_calculados stats
     = Int (sum_counts candidate_votes + blancos + nulos)).

(** [prefix] is [s] cut at the first [sep]. *)
Definition truncated_at (sep : ascii) (s prefix : string) : Prop :=
  Str.has_char sep prefix = false /\
  exists rest, s = prefix +:+ rest /\ (rest = "" \/ exists r, rest = String sep r).

(** The document URLs of a row, for the station payload [mesa]: the
    tokenized URL is the payload's as it came; the source URL is that
    URL cut at the first "?"; both are null when the payload has none. *)
Definition urls_recorded (mesa : value) (row : scraped_data) : Prop :=
  let docs := documentos (col_json row) in
  exists url_pdf,
    Py.get mesa "nombre_archivo" VNone = Ok url_pdf /\
    url_tokenizada docs = url_pdf /\
    (Py.truthy url_pdf = true ->
     exists s prefix, url_pdf = VStr s /\ url_origen docs = VStr prefix /\
                      truncated_at "?" s prefix) /\
    (Py.truthy url_pdf = false -> url_origen docs = VNone) /\
    (url_pdf = VNone -> url_origen docs = VNone /\ url_tokenizada docs = VNone).

(** The row [build_record] writes, when it writes one. *)
Definition record_built (mesa : value) (n : Z) (data : station_data)
    (row : scraped_data) : Prop :=
  col_id_jrv row = n /\ id_jrv (col_json row) = n /\
  extraer_votos (snd (fst data)) = Ok (votos_blancos (estadisticas (col_json row))) /\
  extraer_votos (snd data) = Ok (votos_nulos (estadisticas (col_json row))) /\
  totals_computed row /\
  urls_recorded mesa row.

(** ** The record of a station without data *)

(** An answer the builder can read fields from: a keyed object, or
    anything falsy (absent included), which [or {}] replaces. *)
Definition keyed_or_falsy (v : value) : bool :=
  match v with
  | VDict _ => true
  | _ => negb (Py.truthy v)
  end.

(** A document URL the builder can cut: a str, or anything falsy. *)
Definition url_usable (v : value) : bool :=
  match v with
  | VStr _ => true
  | _ => negb (Py.truthy v)
  end.

(** A value SQLite can bind. *)
Definition storable (v : value) : bool :=
  match bind v with
  | Ok _ => true
  | Raise _ => false
  end.

Definition all_zero (row : scraped_data) : Prop :=
  let stats := estadisticas (col_json row) in
  votos_validos_calc stats = Int 0 /\ votos_blancos stats = Int 0 /\
  votos_nulos stats = Int 0 /\ total_votos_calculados stats = Int 0 /\
  detalle_resultados (col_json row) = [] /\
  col_votos_validos_calculados row = SqlInteger 0.

(** ** Properties of coroutines *)

(** A coroutine that never raises. *)
Definition total {A} (m : M A) : Prop := forall w, exists a, fst (m w) = Ok a.

(** A coroutine that leaves a component of the world as it finds it. *)
Definition keeps {X A} (f : world -> X) (m : M A) : Prop :=
  forall w, f (snd (m w)) = f w.

(** The weakest precondition of a coroutine: what holds of its outcome. *)
Definition wp {A} (m : M A) (w : world) (Q : result A -> world -> Prop) : Prop :=
  Q (fst (m w)) (snd (m w)).

(** The components of the world that sending requests, sleeping and
    logging leave alone. *)
Class Offline {X : Type} (f : world -> X) : Prop := {
  offline_sent : forall n w, f (set_sent n w) = f w;
  offline_trace : forall t w, f (set_trace t w) = f w;
}.

(** What [build_record] leaves in the store: nothing new, or the one
    row of the station, built as specified. *)
Definition store_after (mesa : value) (n : Z) (data : station_data)
    (before : gmap Z scraped_data) (r : result unit) (w' : world) : Prop :=
  db w' = before \/
  exists row, r = Ok tt /\ db w' = <[n := row]> before /\ record_built mesa n data row.

(** ** Concrete runs *)

Module Run.

(** A scraper installed under /srv/cne. *)
Definition scraper : CNE_Scraper_Async := init "/srv/cne".

(** A fresh world: empty store, empty disk that takes every write,
    nothing sent yet. *)
Definition fresh (api : nat -> request -> response value)
    (cdn : nat -> string -> response string) : world :=
  {| api := api; cdn := cdn; disk := fun _ _ => Stored; sent := 0; clock := 0;
     db := ∅; fs := ∅; queue := []; trace := [] |}.

Definition no_cdn : nat -> string -> response string := fun _ _ => Unreachable.

(** A server that answers 500 to everything. *)
Definition always_500 : nat -> request -> response value :=
  fun _ _ => Status 500 None.

(** A server that answers 404 to the first request and 200 with the
    payload 7 to the following ones. *)
Definition first_404 : nat -> request -> response value :=
  fun k _ => if (k =? 0)%nat then Status 404 None else Status 200 (Some (VInt 7)).

(** A server with results for every station: two candidates with 10
    and 5 votes, 2 blank and 2 null votes (each special-votes answer in
    the direct shape), no validity or turnout summary; the results carry
    totals of their own, which the scraper has no use for. *)
Definition tally : nat -> request -> response value :=
  fun _ r =>
    if String.eqb (url r) (BASE_API scraper +:+ "/presentacion-resultados") then
      Status 200
        (Some (VDict [("fecha_corte", VStr "2025-12-01T08:00:00");
                      ("votos_validos", VInt 999);
                      ("total_votos", VInt 999);
                      ("candidatos",
                       VList [VDict [("parpo_id", VStr "A"); ("cddto_codigo", VStr "001");
                                     ("votos", VInt 10)];
                              VDict [("parpo_id", VStr "B"); ("cddto_codigo", VStr "002");
                                     ("votos", VInt 5)]])]))
    else if String.eqb (url r) (URL_VOTOS scraper) then
      Status 200 (Some (VDict [("votos", VInt 2)]))
    else Status 204 None.

(** A server with no data at all: 204 to every request. *)
Definition silent : nat -> request -> response value :=
  fun _ _ => Status 204 None.

(** Station 42 of center 0001, with a signed document link. *)
Definition mesa_42 : value :=
  VDict [("numero", VInt 42);
         ("nombre_archivo", VStr "https://cne/actas/42.pdf?token=abc")].

Definition ids_42 : geo :=
  {| depto := VStr "01"; muni := VStr "001"; zona := VStr "01"; centro := VStr "0001" |}.

Definition noms_42 : geo :=
  {| depto := VStr "Atlantida"; muni := VStr "La Ceiba"; zona := VStr "URBANA";
     centro := VStr "Escuela Central" |}.

(** The world after a first pass over station 42 on a fresh world
    served by [tally], and the row it leaves. *)
Definition first_pass : world :=
  snd (procesar_mesa_task scraper mesa_42 ids_42 noms_42 (fresh tally no_cdn)).

Definition row_42 : scraped_data.
Proof.
  let r := eval vm_compute in (db first_pass !! 42) in
  match r with
  | Some ?row => exact row
  end.
Defined.

End Run.

Module Malformed.

(** A server without candidate results and special votes (204), whose
    validity summary comes wrapped in a list. *)
Definition wrapped_summary : nat -> request -> response value :=
  fun _ r =>
    if String.eqb (url r)
         (BASE_API Run.scraper +:+ "/presentacion-resultados/actas-validas") then
      Status 200 (Some (VList [VDict [("publicadas", VInt 1)]]))
    else Status 204 None.

(** A server whose results list a candidate whose vote count is not a
    number (NaN, which [json.loads] reads). *)
Definition nan_votes : nat -> request -> response value :=
  fun _ r =>
    if String.eqb (url r) (BASE_API Run.scraper +:+ "/presentacion-resultados") then
      Status 200
        (Some (VDict [("candidatos",
                       VList [VDict [("parpo_id", VStr "A");
                                     ("votos", VFloat PrimFloat.nan)]])]))
    else Status 204 None.

(** A server whose results list a candidate with a null vote count. *)
Definition null_votes : nat -> request -> response value :=
  fun _ r =>
    if String.eqb (url r) (BASE_API Run.scraper +:+ "/presentacion-resultados") then
      Status 200
        (Some (VDict [("candidatos",
                       VList [VDict [("parpo_id", VStr "A"); ("votos", VNone)]])]))
    else Status 204 None.

End Malformed.

Module Crawl.

(** A remote dataset with one municipality, one zone, one center and
    two stations under department 01, the zone served without a label;
    the other departments have no data. *)
Definition hierarchy : nat -> request -> response value :=
  fun k r =>
    let nav := actas_documentos Run.scraper in
    if String.eqb (method r) "POST" then Run.tally k r
    else if String.eqb (url r) (nav ["01"; "municipios"]) then
      Status 200 (Some (VList [VDict [("id_municipio", VStr "001");
                                      ("municipio", VStr "La Ceiba")]]))
    else if String.eqb (url r) (nav ["01"; "001"; "00"; "zonas"]) then
      Status 200 (Some (VList [VDict [("cod_zona", VStr "01")]]))
    else if String.eqb (url r) (nav ["01"; "001"; "01"; "puestos"]) then
      Status 200 (Some (VList [VDict [("id_puesto", VStr "0001");
                                      ("puesto", VStr "Escuela Central")]]))
    else if String.eqb (url r) (nav ["01"; "001"; "01"; "0001"; "mesas"]) then
      Status 200 (Some (VList [Run.mesa_42; VDict [("jrv", VStr "43")]]))
    else Status 204 None.

(** The data calls of a trace: its POST requests. *)
Definition data_calls (t : list event) : list request :=
  flat_map (fun e => match e with
                     | Request r => if String.eqb (method r) "POST" then [r] else []
                     | _ => []
                     end) t.

Definition first_run : world :=
  snd (main Run.scraper (Run.fresh hierarchy Run.no_cdn)).

Definition second_run : world := snd (main Run.scraper first_run).

End Crawl.

(** * Properties *)

(** ** Reasoning about coroutines *)

(** Running a coroutine step by step. *)
Lemma run_bind {A B} (m : M A) (k : A -> M B) (w : world) :
  (m ≫= k) w =
  match m w with
  | (Ok a, w') => k a w'
  | (Raise e, w') => (Raise e, w')
  end.
Proof. reflexivity. Qed.

Lemma run_lift {A} (r : result A) (w : world) : lift r w = (r, w).
Proof. reflexivity. Qed.

Lemma world_eta (w : world) :
  {| api := api w; cdn := cdn w; disk := disk w; sent := sent w; clock := clock w;
     db := db w; fs := fs w; queue := queue w; trace := trace w |} = w.
Proof. destruct w; reflexivity. Qed.

Lemma advance_advance (n m : nat) (es fs' : list event) (w : world) :
  advance n es (advance m fs' w) = advance (n + m) (fs' ++ es) w.
Proof.
  unfold advance, set_sent, set_trace; cbn. f_equal; [lia | symmetry; apply app_assoc].
Qed.

Section Closure.
Context {X : Type} (f : world -> X).

Lemma keeps_ret {A} (a : A) : keeps f (mret a : M A).
Proof. intros w; reflexivity. Qed.

Lemma keeps_lift {A} (r : result A) : keeps f (lift r).
Proof. intros w; reflexivity. Qed.

Lemma keeps_raise {A} (e : exn) : keeps f (raise e : M A).
Proof. intros w; reflexivity. Qed.

Lemma keeps_gets {A} (g : world -> A) : keeps f (gets g).
Proof. intros w; reflexivity. Qed.

Lemma keeps_modify (g : world -> world) :
  (forall w, f (g w) = f w) -> keeps f (modify g).
Proof. intros Hg w; apply Hg. Qed.

Lemma keeps_bind {A B} (m : M A) (k : A -> M B) :
  keeps f m -> (forall a, keeps f (k a)) -> keeps f (m ≫= k).
Proof.
  intros Hm Hk w. rewrite run_bind. specialize (Hm w).
  destruct (m w) as [[a|e] w']; cbn in *.
  - rewrite Hk. exact Hm.
  - exact Hm.
Qed.

Lemma keeps_try_except {A} (body : M A) (handler : exn -> M A) :
  keeps f body -> (forall e, keeps f (handler e)) -> keeps f (try_except body handler).
Proof.
  intros Hb Hh w. unfold try_except. specialize (Hb w).
  destruct (body w) as [[a|e] w']; cbn in *.
  - exact Hb.
  - rewrite Hh. exact Hb.
Qed.

Lemma keeps_for_range {A} (body : nat -> M (option A)) (orelse : M A)
    (count start : nat) :
  (forall i, keeps f (body i)) -> keeps f orelse ->
  keeps f (for_range start count body orelse).
Proof.
  intros Hb Ho. revert start.
  induction count as [|count IH]; intros start; cbn [for_range].
  - exact Ho.
  - apply keeps_bind; [apply Hb|]. intros [a|]; [apply keeps_ret | apply IH].
Qed.

Lemma keeps_for_each {A} (xs : list A) (body : A -> M unit) :
  (forall x, keeps f (body x)) -> keeps f (for_each xs body).
Proof.
  intros Hb. induction xs as [|x xs IH]; cbn [for_each].
  - apply keeps_ret.
  - apply keeps_bind; [apply Hb | intros _; exact IH].
Qed.
End Closure.

Lemma total_ret {A} (a : A) : total (mret a : M A).
Proof. intros w; eexists; reflexivity. Qed.

Lemma total_gets {A} (g : world -> A) : total (gets g).
Proof. intros w; eexists; reflexivity. Qed.

Lemma total_modify (g : world -> world) : total (modify g).
Proof. intros w; eexists; reflexivity. Qed.

Lemma total_bind {A B} (m : M A) (k : A -> M B) :
  total m -> (forall a, total (k a)) -> total (m ≫= k).
Proof.
  intros Hm Hk w. rewrite run_bind. destruct (Hm w) as [a Ha].
  destruct (m w) as [[a'|e] w']; cbn in *; [apply Hk | discriminate Ha].
Qed.

Lemma total_try_except {A} (body : M A) (handler : exn -> M A) :
  (forall e, total (handler e)) -> total (try_except body handler).
Proof.
  intros Hh w. unfold try_except.
  destruct (body w) as [[a|e] w']; [eexists; reflexivity | apply Hh].
Qed.

Lemma total_for_range {A} (body : nat -> M (option A)) (orelse : M A)
    (count start : nat) :
  (forall i, total (body i)) -> total orelse ->
  total (for_range start count body orelse).
Proof.
  intros Hb Ho. revert start.
  induction count as [|count IH]; intros start; cbn [for_range].
  - exact Ho.
  - apply total_bind; [apply Hb|]. intros [a|]; [apply total_ret | apply IH].
Qed.

(** Unfolding the primitives of the monad. *)
Ltac run :=
  cbv [mbind mret M_bind M_ret lift gets modify emit sleep sleep_uniform log raise
       send try_except now] in *.

(** Frame and totality goals are closed structurally. *)
Ltac frame_step :=
  first
    [ apply keeps_ret | apply keeps_lift | apply keeps_raise | apply keeps_gets
    | apply keeps_modify; intros ?; reflexivity
    | apply keeps_bind; [|intros ?]
    | apply keeps_try_except; [|intros ?]
    | apply keeps_for_range; [intros ?|]
    | apply keeps_for_each; intros ?
    | apply total_ret | apply total_gets | apply total_modify
    | apply total_bind; [|intros ?]
    | apply total_try_except; intros ?
    | apply total_for_range; [intros ?|]
    | match goal with
      | |- keeps _ (match ?x with _ => _ end) => destruct x
      | |- total (match ?x with _ => _ end) => destruct x
      | |- keeps _ (if ?x then _ else _) => destruct x
      | |- total (if ?x then _ else _) => destruct x
      end ].

Ltac frame := repeat frame_step.

Ltac pure_run := cbv [mbind mret result_bind result_ret] in *.

#[global] Instance db_offline : Offline db.
Proof. split; reflexivity. Qed.
#[global] Instance fs_offline : Offline fs.
Proof. split; reflexivity. Qed.
#[global] Instance queue_offline : Offline queue.
Proof. split; reflexivity. Qed.
#[global] Instance clock_offline : Offline clock.
Proof. split; reflexivity. Qed.
#[global] Instance api_offline : Offline api.
Proof. split; reflexivity. Qed.
#[global] Instance cdn_offline : Offline cdn.
Proof. split; reflexivity. Qed.
#[global] Instance disk_offline : Offline disk.
Proof. split; reflexivity. Qed.

Lemma emit_keeps {X} (f : world -> X) `{!Offline f} e : keeps f (emit e).
Proof. unfold emit. apply keeps_modify. intros w. apply offline_trace. Qed.

Lemma send_keeps {X} (f : world -> X) `{!Offline f} r : keeps f (send r).
Proof.
  unfold send. apply keeps_bind; [apply keeps_gets|]. intros answer.
  apply keeps_bind; [|intros; apply keeps_ret].
  apply keeps_modify. intros w. rewrite offline_sent, offline_trace. reflexivity.
Qed.

Lemma wp_ret {A} (a : A) w (Q : result A -> world -> Prop) :
  Q (Ok a) w -> wp (mret a) w Q.
Proof. intros H; exact H. Qed.

Lemma wp_bind {A B} (m : M A) (k : A -> M B) w (Q : result B -> world -> Prop) :
  wp m w (fun r w' =>
            match r with
            | Ok a => wp (k a) w' Q
            | Raise e => Q (Raise e) w'
            end) ->
  wp (m ≫= k) w Q.
Proof.
  unfold wp. rewrite run_bind. destruct (m w) as [[a|e] w']; intros H; exact H.
Qed.

Lemma wp_lift {A B} (r : result A) (k : A -> M B) w (Q : result B -> world -> Prop) :
  match r with
  | Ok a => wp (k a) w Q
  | Raise e => Q (Raise e) w
  end ->
  wp (lift r ≫= k) w Q.
Proof. intros H. apply wp_bind. exact H. Qed.

Lemma wp_keeps {X A} (f : world -> X) (m : M A) w (Q : result A -> world -> Prop) :
  keeps f m -> (forall r w', f w' = f w -> Q r w') -> wp m w Q.
Proof. intros Hm HQ. apply HQ, Hm. Qed.

Lemma wp_total_keeps {X A} (f : world -> X) (m : M A) w
    (Q : result A -> world -> Prop) :
  total m -> keeps f m -> (forall a w', f w' = f w -> Q (Ok a) w') -> wp m w Q.
Proof.
  intros Ht Hk HQ. unfold wp. destruct (Ht w) as [a Ha]. rewrite Ha.
  apply HQ, Hk.
Qed.

Lemma now_keeps {X} (f : world -> X) :
  (forall n w, f (set_clock n w) = f w) -> keeps f now.
Proof.
  intros Hclock. unfold now.
  repeat first [ apply keeps_modify; intros ?; apply Hclock | frame_step ].
Qed.

(** ** Vote-count extraction *)

Lemma sumar_votos_line_items (items : list value) (total : number) :
  forallb line_item items = true ->
  sumar_votos total items = Py.sum_from total (map votos_field items).
Proof.
  revert total. induction items as [|item rest IH]; intros total Hall.
  - reflexivity.
  - simpl in Hall. apply andb_true_iff in Hall as [Hitem Hrest].
    destruct item as [| | | | | |d]; try discriminate Hitem.
    cbn [sumar_votos Py.get map votos_field Py.sum_from]. pure_run.
    destruct (Py.lookup d "votos") as [v|];
      match goal with
      | |- context [Py.add ?t ?x] =>
          destruct (Py.add t x); [apply IH, Hrest | reflexivity]
      end.
Qed.

Lemma sumar_votos_bad_item (items : list value) (total : number) :
  forallb line_item items = false ->
  exists e, sumar_votos total items = Raise e.
Proof.
  revert total. induction items as [|item rest IH]; intros total Hbad.
  - discriminate Hbad.
  - simpl in Hbad. apply andb_false_iff in Hbad.
    destruct (line_item item) eqn:Hitem.
    + destruct Hbad as [Hbad|Hbad]; [discriminate Hbad|].
      destruct item as [| | | | | |d]; try discriminate Hitem.
      cbn [sumar_votos Py.get]. pure_run.
      match goal with
      | |- context [Py.add ?t ?x] =>
          destruct (Py.add t x); [apply IH, Hbad | eexists; reflexivity]
      end.
    + clear Hbad. destruct item as [| | | | | |d];
        try (eexists; reflexivity).
      cbn [sumar_votos Py.get]. pure_run. unfold line_item in Hitem.
      destruct (Py.lookup d "votos") as [v|]; [|discriminate Hitem].
      unfold Py.add. unfold is_number in Hitem.
      destruct (Py.number_of v); [discriminate Hitem | eexists; reflexivity].
Qed.

Lemma extraer_votos_well_shaped (resp : value) :
  well_shaped resp = true -> extraer_votos resp = extraer_votos_spec resp.
Proof.
  intros Hshape. destruct resp as [| b | n | f | s | items | d]; try reflexivity.
  - simpl in *. rewrite sumar_votos_line_items by assumption. reflexivity.
  - unfold extraer_votos, extraer_votos_spec, well_shaped, Py.has_key in *.
    cbn [Py.getitem Py.get].
    destruct (Py.lookup d "resultados") as [collection|].
    + pure_run. unfold line_items, items_of, sum_votos_fields in *.
      destruct (Py.iter collection) as [items|e]; [|discriminate Hshape].
      rewrite sumar_votos_line_items by assumption. reflexivity.
    + destruct (Py.lookup d "votos") as [v|]; [|reflexivity].
      pure_run. cbn [Py.sum Py.sum_from]. pure_run.
      destruct (Py.add (Int 0) v); reflexivity.
Qed.

(** Outside these shapes the extraction raises. *)
Lemma extraer_votos_ill_shaped (resp : value) :
  well_shaped resp = false -> exists e, extraer_votos resp = Raise e.
Proof.
  intros Hshape. destruct resp as [| b | n | f | s | items | d];
    try discriminate Hshape.
  - simpl in *. apply sumar_votos_bad_item, Hshape.
  - unfold extraer_votos, well_shaped, Py.has_key in *. cbn [Py.getitem Py.get].
    destruct (Py.lookup d "resultados") as [collection|].
    + pure_run. unfold line_items in Hshape.
      destruct (Py.iter collection) as [items|e].
      * apply sumar_votos_bad_item, Hshape.
      * eexists; reflexivity.
    + destruct (Py.lookup d "votos") as [v|]; [|discriminate Hshape].
      pure_run. unfold Py.add. unfold is_number in Hshape.
      destruct (Py.number_of v); [discriminate Hshape | eexists; reflexivity].
Qed.

(** C2, as amended: on every response whose line items are keyed
    objects with a number as [votos] (and whose direct [votos] is a
    number), [extraer_votos] does what the specification describes: 0
    for an absent response, a bare number as an integer ([int] of it),
    the sum of the items' [votos] for a list or under [resultados], the
    direct [votos] (added to 0), and 0 for any other shape, where the
    sums and [int] are Python's and raise when Python's do; on every
    other response it raises. *)
Theorem extraer_votos_shapes (resp : value) :
  (well_shaped resp = true -> extraer_votos resp = extraer_votos_spec resp) /\
  (well_shaped resp = false -> exists e, extraer_votos resp = Raise e).
Proof.
  split; [apply extraer_votos_well_shaped | apply extraer_votos_ill_shaped].
Qed.

(** The three shapes of the specification all extract 7; a bare 7.5 is
    cut to 7, and a direct 2.5 is extracted as it is. *)
Lemma extraer_votos_shapes_witness :
  extraer_votos (VInt 7) = Ok (Int 7) /\
  extraer_votos (VDict [("votos", VInt 7)]) = Ok (Int 7) /\
  extraer_votos
    (VDict [("resultados",
             VList [VDict [("votos", VInt 3)]; VDict [("votos", VInt 4)]])])
  = Ok (Int 7) /\
  extraer_votos (VFloat 7.5) = Ok (Int 7) /\
  extraer_votos (VDict [("votos", VFloat 2.5)]) = Ok (Real 2.5).
Proof.
  split; [|split; [|split; [|split]]].
  - exact (proj1 (extraer_votos_shapes (VInt 7)) eq_refl).
  - exact (proj1 (extraer_votos_shapes (VDict [("votos", VInt 7)])) eq_refl).
  - exact (proj1 (extraer_votos_shapes
                    (VDict [("resultados",
                             VList [VDict [("votos", VInt 3)];
                                    VDict [("votos", VInt 4)]])])) eq_refl).
  - exact (proj1 (extraer_votos_shapes (VFloat 7.5)) eq_refl).
  - exact (proj1 (extraer_votos_shapes (VDict [("votos", VFloat 2.5)])) eq_refl).
Defined.

(** C2, as stated, fails: a list of bare numbers is a response shape
    the extraction raises on, where the specification has it yield 0;
    and a bare number that is no number (NaN) raises too. *)
Lemma extraer_votos_list_of_numbers :
  extraer_votos (VList [VInt 7]) = Raise AttributeError /\
  extraer_votos_spec (VList [VInt 7]) = Ok (Int 0) /\
  extraer_votos (VFloat PrimFloat.nan) = Raise ValueError.
Proof. split; [|split]; reflexivity. Qed.

(** ** Fetch client *)

Lemma fetch_attempt_total self method url json_payload attempt :
  total (fetch_attempt self method url json_payload attempt).
Proof.
  unfold fetch_attempt, log, sleep, sleep_uniform, emit. frame.
Qed.

Lemma fetch_total self method url json_payload retries :
  total (fetch self method url json_payload retries).
Proof.
  unfold fetch. apply total_for_range; [intros i; apply fetch_attempt_total | apply total_ret].
Qed.

Lemma fetch_attempt_classifies self method url json_payload attempt w :
  method = "GET" \/ method = "POST" ->
  fetch_attempt self method url json_payload attempt w =
  let r := request_of method url json_payload in
  match classify method url attempt (api w (sent w) r) with
  | Return v => (Ok (Some v), advance 1 [Jitter 400 800; Request r] w)
  | Retry events => (Ok None, advance 1 (Jitter 400 800 :: Request r :: events) w)
  end.
Proof.
  intros [-> | ->]; unfold fetch_attempt, classify, request_of, no_data_status; run;
    cbn [String.eqb Ascii.eqb Bool.eqb sent api trace set_trace set_sent andb orb].
  all: match goal with
       | |- context [api ?w0 (sent ?w0) ?r] =>
           destruct (api w0 (sent w0) r) as [code body|]
       end.
  all: try (destruct (code =? 200) eqn:H200; [destruct body|]).
  all: try (destruct (code =? 204) eqn:H204).
  all: try destruct (code =? 404) eqn:H404.
  all: cbn [andb orb].
  all: unfold advance, set_sent, set_trace, backoff;
    cbn [sent api trace cdn db fs queue clock Nat.add];
    rewrite <- ?app_assoc; reflexivity.
Qed.

Lemma fetch_from_classifies self method url json_payload remaining attempt w :
  method = "GET" \/ method = "POST" ->
  for_range attempt remaining (fetch_attempt self method url json_payload)
    (mret VNone) w =
  (Ok (fst (fetch_spec method url json_payload attempt remaining w)),
   snd (fetch_spec method url json_payload attempt remaining w)).
Proof.
  intros Hmethod. revert attempt w.
  induction remaining as [|remaining IH]; intros attempt w.
  - reflexivity.
  - cbn [for_range fetch_spec]. rewrite run_bind.
    rewrite fetch_attempt_classifies by exact Hmethod. cbv zeta.
    destruct (classify method url attempt
                (api w (sent w) (request_of method url json_payload)))
      as [v|events].
    + reflexivity.
    + apply IH.
Qed.

(** C4, as amended: for GET and POST alike, [fetch] does what the
    specification describes attempt by attempt: after the jitter and the
    request, a 200 returns the parsed payload; a 204, and a 404 on a
    GET, return absent at once; any other status (a 404 on a POST
    included) is logged and the next attempt follows; a request that
    raises is logged and followed by a backoff of attempt x 1 s; and
    once the attempts are spent the result is absent.  It never
    raises. *)
Theorem fetch_classifies self method url json_payload retries w :
  method = "GET" \/ method = "POST" ->
  fetch self method url json_payload retries w =
  (Ok (fst (fetch_spec method url json_payload 0 retries w)),
   snd (fetch_spec method url json_payload 0 retries w)).
Proof. intros Hmethod. apply fetch_from_classifies, Hmethod. Qed.

Lemma fetch_classifies_witness :
  fetch Run.scraper "GET" "https://cne/x" None 3 (Run.fresh Run.always_500 Run.no_cdn) =
  (Ok VNone,
   advance 3
     [Jitter 400 800;
      Request {| method := "GET"; url := "https://cne/x"; json_payload := None |};
      Log WARNING (MsgStatus "GET" 500 "https://cne/x");
      Jitter 400 800;
      Request {| method := "GET"; url := "https://cne/x"; json_payload := None |};
      Log WARNING (MsgStatus "GET" 500 "https://cne/x");
      Jitter 400 800;
      Request {| method := "GET"; url := "https://cne/x"; json_payload := None |};
      Log WARNING (MsgStatus "GET" 500 "https://cne/x")]
     (Run.fresh Run.always_500 Run.no_cdn)).
Proof.
  rewrite (fetch_classifies Run.scraper "GET" "https://cne/x" None 3
             (Run.fresh Run.always_500 Run.no_cdn));
    [reflexivity | left; reflexivity].
Defined.

(** The first attempt, case by case. *)
Lemma fetch_first_200 self method url json_payload retries w v :
  method = "GET" \/ method = "POST" ->
  api w (sent w) (request_of method url json_payload) = Status 200 (Some v) ->
  fetch self method url json_payload (S retries) w =
  (Ok v, advance 1 [Jitter 400 800; Request (request_of method url json_payload)] w).
Proof.
  intros Hmethod Hanswer. unfold fetch.
  rewrite fetch_from_classifies by exact Hmethod.
  cbn [fetch_spec]. rewrite Hanswer. reflexivity.
Qed.

Lemma fetch_first_no_data self method url json_payload retries w code body :
  method = "GET" \/ method = "POST" ->
  api w (sent w) (request_of method url json_payload) = Status code body ->
  no_data_status method code = true ->
  fetch self method url json_payload (S retries) w =
  (Ok VNone, advance 1 [Jitter 400 800; Request (request_of method url json_payload)] w).
Proof.
  intros Hmethod Hanswer Hcode. unfold fetch.
  rewrite fetch_from_classifies by exact Hmethod.
  cbn [fetch_spec]. rewrite Hanswer. unfold classify. rewrite Hcode.
  destruct (code =? 200) eqn:H200; [|reflexivity].
  apply Z.eqb_eq in H200 as ->. unfold no_data_status in Hcode.
  cbn in Hcode. discriminate Hcode.
Qed.

Lemma fetch_first_other_status self method url json_payload retries w code body :
  method = "GET" \/ method = "POST" ->
  api w (sent w) (request_of method url json_payload) = Status code body ->
  code <> 200 ->
  no_data_status method code = false ->
  fetch self method url json_payload (S retries) w =
  for_range 1 retries (fetch_attempt self method url json_payload) (mret VNone)
    (advance 1 [Jitter 400 800; Request (request_of method url json_payload);
                Log WARNING (MsgStatus method code url)] w).
Proof.
  intros Hmethod Hanswer H200 Hcode. unfold fetch.
  rewrite !fetch_from_classifies by exact Hmethod.
  cbn [fetch_spec]. rewrite Hanswer. unfold classify. rewrite Hcode.
  apply Z.eqb_neq in H200. rewrite H200. reflexivity.
Qed.

Lemma fetch_first_raises self method url json_payload retries w :
  method = "GET" \/ method = "POST" ->
  api w (sent w) (request_of method url json_payload) = Unreachable ->
  fetch self method url json_payload (S retries) w =
  for_range 1 retries (fetch_attempt self method url json_payload) (mret VNone)
    (advance 1 [Jitter 400 800; Request (request_of method url json_payload);
                Log ERROR (MsgAttempt method url 1 ClientError); Sleep 1000] w).
Proof.
  intros Hmethod Hanswer. unfold fetch.
  rewrite !fetch_from_classifies by exact Hmethod.
  cbn [fetch_spec]. rewrite Hanswer. reflexivity.
Qed.

(** C4, as stated, fails on a POST: a 404 is not an immediate absent
    but a logged status followed by a retry, here one that succeeds. *)
Lemma fetch_post_404_retried :
  let run := fetch Run.scraper "POST" "https://cne/votos" (Some (VDict [])) 3
               (Run.fresh Run.first_404 Run.no_cdn) in
  fst run = Ok (VInt 7) /\ sent (snd run) = 2%nat /\
  trace (snd run) =
    [Jitter 400 800;
     Request {| method := "POST"; url := "https://cne/votos";
                json_payload := Some (VDict []) |};
     Log WARNING (MsgStatus "POST" 404 "https://cne/votos");
     Jitter 400 800;
     Request {| method := "POST"; url := "https://cne/votos";
                json_payload := Some (VDict []) |}].
Proof. cbv zeta. split; [|split]; reflexivity. Qed.

(** A GET, on the same server, returns absent at once. *)
Lemma fetch_get_404_absent :
  let run := fetch Run.scraper "GET" "https://cne/votos" None 3
               (Run.fresh Run.first_404 Run.no_cdn) in
  fst run = Ok VNone /\ sent (snd run) = 1%nat.
Proof. cbv zeta. split; reflexivity. Qed.

Lemma fetch_attempt_other_method self method url json_payload attempt w :
  String.eqb method "GET" = false -> String.eqb method "POST" = false ->
  fetch_attempt self method url json_payload attempt w =
  (Ok None, advance 0 [Jitter 400 800] w).
Proof.
  intros Hget Hpost. unfold fetch_attempt. rewrite Hget, Hpost. run.
  unfold advance, set_sent, set_trace. cbn. reflexivity.
Qed.

(** With a method other than GET and POST nothing is sent. *)
Lemma fetch_other_method self method url json_payload retries w :
  String.eqb method "GET" = false -> String.eqb method "POST" = false ->
  fst (fetch self method url json_payload retries w) = Ok VNone /\
  sent (snd (fetch self method url json_payload retries w)) = sent w.
Proof.
  intros Hget Hpost. unfold fetch. generalize 0%nat as attempt. revert w.
  induction retries as [|retries IH]; intros w attempt.
  - split; reflexivity.
  - cbn [for_range]. rewrite run_bind.
    rewrite fetch_attempt_other_method by assumption.
    destruct (IH (advance 0 [Jitter 400 800] w) (S attempt)) as [Hv Hs].
    split; [exact Hv | rewrite Hs; reflexivity].
Qed.

Lemma fetch_attempt_keeps {X} (f : world -> X) `{!Offline f}
    self method url json_payload attempt :
  keeps f (fetch_attempt self method url json_payload attempt).
Proof.
  unfold fetch_attempt, log, sleep, sleep_uniform.
  repeat first
    [ apply emit_keeps; exact _ | apply send_keeps; exact _ | frame_step ].
Qed.

Lemma fetch_keeps {X} (f : world -> X) `{!Offline f}
    self method url json_payload retries :
  keeps f (fetch self method url json_payload retries).
Proof.
  unfold fetch. apply keeps_for_range; [|apply keeps_ret].
  intros i. apply fetch_attempt_keeps; exact _.
Qed.

(** ** Navigation fetch *)

Lemma navigation_attempt_run self url context_msg attempt w :
  navigation_attempt self url context_msg attempt w =
  let answer := api w (sent w) (discovery url) in
  if no_data url answer then
    (Ok None, advance 1 (empty_attempt url context_msg attempt answer) w)
  else
    match classify "GET" url 0 answer with
    | Return v => (Ok (Some v), advance 1 [Jitter 400 800; Request (discovery url)] w)
    | Retry _ => (Ok None, w)
    end.
Proof.
  unfold navigation_attempt, try_except.
  rewrite run_bind, fetch_classifies by (left; reflexivity).
  cbn [fetch_spec]. change (request_of "GET" url None) with (discovery url).
  cbv zeta. unfold no_data, empty_attempt.
  destruct (classify "GET" url 0 (api w (sent w) (discovery url))) as [v|events];
    cbn [fst snd].
  - destruct v; cbn [is_not_None negb]; try reflexivity.
    run. unfold advance, set_sent, set_trace.
    cbn [sent api trace cdn db fs queue clock Nat.add app].
    rewrite <- !app_assoc. reflexivity.
  - cbn [is_not_None]. run. unfold advance, set_sent, set_trace.
    cbn [sent api trace cdn db fs queue clock Nat.add app].
    rewrite <- !app_assoc. reflexivity.
Qed.

Lemma navigation_attempt_total self url context_msg attempt :
  total (navigation_attempt self url context_msg attempt).
Proof.
  unfold navigation_attempt, log, sleep, emit. apply total_try_except.
  intros e. frame.
Qed.

Lemma fetch_navigation_robust_total self url context_msg :
  total (fetch_navigation_robust self url context_msg).
Proof.
  unfold fetch_navigation_robust, log, emit. apply total_for_range.
  - intros i. apply navigation_attempt_total.
  - frame.
Qed.

Lemma fetch_navigation_robust_keeps {X} (f : world -> X) `{!Offline f}
    self url context_msg :
  keeps f (fetch_navigation_robust self url context_msg).
Proof.
  unfold fetch_navigation_robust, navigation_attempt, log, sleep.
  repeat first
    [ apply emit_keeps; exact _ | apply fetch_keeps; exact _ | frame_step ].
Qed.

Lemma navigation_attempts_bounded self url context_msg (orelse : M value)
    remaining attempt w :
  keeps sent orelse ->
  (sent (snd (for_range attempt remaining
                (navigation_attempt self url context_msg) orelse w))
   <= sent w + remaining)%nat.
Proof.
  intros Horelse. revert attempt w.
  induction remaining as [|remaining IH]; intros attempt w.
  - cbn [for_range]. rewrite Horelse. lia.
  - cbn [for_range]. rewrite run_bind, navigation_attempt_run. cbv zeta.
    destruct (no_data url (api w (sent w) (discovery url))).
    + etransitivity; [apply IH|]. cbn [advance sent set_sent]. lia.
    + destruct (classify "GET" url 0 (api w (sent w) (discovery url))).
      * cbn. lia.
      * etransitivity; [apply IH|]. lia.
Qed.

Lemma navigation_attempts_fail self url context_msg remaining attempt w :
  (forall k, (k < remaining)%nat ->
             no_data url (api w (sent w + k)%nat (discovery url)) = true) ->
  for_range attempt remaining (navigation_attempt self url context_msg)
    (log CRITICAL (MsgFinalFailure context_msg);; mret (VList [])) w =
  (Ok (VList []),
   advance remaining
     (branch_failure url context_msg (api w) attempt (sent w) remaining) w).
Proof.
  revert attempt w. induction remaining as [|remaining IH]; intros attempt w Hfail.
  - cbn [for_range branch_failure]. run. unfold advance, set_sent, set_trace.
    reflexivity.
  - cbn [for_range branch_failure]. rewrite run_bind, navigation_attempt_run.
    cbv zeta. assert (H0 := Hfail 0%nat ltac:(lia)).
    rewrite Nat.add_0_r in H0. rewrite H0.
    rewrite IH.
    + rewrite advance_advance. cbn [advance sent set_sent api set_trace].
      repeat f_equal. lia.
    + intros k Hk. cbn [advance sent set_sent api set_trace].
      replace (1 + sent w + k)%nat with (sent w + S k)%nat by lia.
      apply Hfail. lia.
Qed.

Lemma for_in_empty (body : value -> M unit) (w : world) :
  for_in (VList []) body w = (Ok tt, w).
Proof. reflexivity. Qed.

Lemma visit_muni_unreachable self depto_id depto_nombre muni id_muni nom_muni w :
  Py.getitem muni "id_municipio" = Ok id_muni ->
  Py.getitem muni "municipio" = Ok nom_muni ->
  let url := actas_documentos self [depto_id; Py.str id_muni; "00"; "zonas"] in
  let context_msg := "Zones of " +:+ Py.str nom_muni in
  (forall k, (k < 5)%nat ->
             no_data url (api w (sent w + k)%nat (discovery url)) = true) ->
  visit_muni self depto_id depto_nombre muni w =
  (Ok tt,
   advance 5
     (branch_failure url context_msg (api w) 0 (sent w) 5
      ++ [Print ("Processing Department: " +:+ depto_nombre +:+ " Municipality: "
                 +:+ Py.str nom_muni)]) w).
Proof.
  intros Hid Hnom url context_msg Hfail. unfold visit_muni.
  rewrite run_bind. rewrite Hid. rewrite run_lift.
  rewrite run_bind. rewrite Hnom. rewrite run_lift.
  rewrite run_bind. unfold fetch_navigation_robust.
  fold url. fold context_msg.
  rewrite (navigation_attempts_fail self url context_msg max_retries 0 w)
    by exact Hfail.
  rewrite run_bind. run. rewrite for_in_empty.
  unfold max_retries, advance, set_sent, set_trace.
  cbn [sent api trace cdn db fs queue clock].
  rewrite <- !app_assoc. reflexivity.
Qed.

Lemma visit_depto_unreachable self depto w :
  let url := actas_documentos self [fst depto; "municipios"] in
  let context_msg := "Municipalities of " +:+ snd depto in
  (forall k, (k < 5)%nat ->
             no_data url (api w (sent w + k)%nat (discovery url)) = true) ->
  visit_depto self depto w =
  (Ok tt,
   advance 5
     (branch_failure url context_msg (api w) 0 (sent w) 5
      ++ [Print ("Processing Department: " +:+ snd depto)]) w).
Proof.
  intros url context_msg Hfail. unfold visit_depto. cbv zeta.
  rewrite run_bind. unfold fetch_navigation_robust.
  fold url. fold context_msg.
  rewrite (navigation_attempts_fail self url context_msg max_retries 0 w)
    by exact Hfail.
  rewrite run_bind. run. rewrite for_in_empty.
  unfold max_retries, advance, set_sent, set_trace.
  cbn [sent api trace cdn db fs queue clock].
  rewrite <- !app_assoc. reflexivity.
Qed.

(** C7: [fetch_navigation_robust] never raises and sends at most 5
    discovery requests; when none of the 5 attempts yields data it
    returns the empty list, having backed off attempt x 2 s after each
    attempt and logged the critical branch failure last.  A municipality
    whose zones cannot be discovered, or a department whose
    municipalities cannot, is then passed over: the traversal goes on
    with the siblings in a world that differs only by the trace and the
    requests sent. *)
Theorem discovery_failure_isolated self :
  (forall url context_msg w,
     let run := fetch_navigation_robust self url context_msg w in
     (exists v, fst run = Ok v) /\ (sent (snd run) <= sent w + 5)%nat) /\
  (forall url context_msg w,
     (forall k, (k < 5)%nat ->
                no_data url (api w (sent w + k)%nat (discovery url)) = true) ->
     fetch_navigation_robust self url context_msg w =
     (Ok (VList []),
      advance 5 (branch_failure url context_msg (api w) 0 (sent w) 5) w)) /\
  (forall depto_id depto_nombre muni id_muni nom_muni rest w,
     Py.getitem muni "id_municipio" = Ok id_muni ->
     Py.getitem muni "municipio" = Ok nom_muni ->
     let url := actas_documentos self [depto_id; Py.str id_muni; "00"; "zonas"] in
     let context_msg := "Zones of " +:+ Py.str nom_muni in
     (forall k, (k < 5)%nat ->
                no_data url (api w (sent w + k)%nat (discovery url)) = true) ->
     for_each (muni :: rest) (visit_muni self depto_id depto_nombre) w =
     for_each rest (visit_muni self depto_id depto_nombre)
       (advance 5
          (branch_failure url context_msg (api w) 0 (sent w) 5
           ++ [Print ("Processing Department: " +:+ depto_nombre
                      +:+ " Municipality: " +:+ Py.str nom_muni)]) w)) /\
  (forall depto rest w,
     let url := actas_documentos self [fst depto; "municipios"] in
     let context_msg := "Municipalities of " +:+ snd depto in
     (forall k, (k < 5)%nat ->
                no_data url (api w (sent w + k)%nat (discovery url)) = true) ->
     for_each (depto :: rest) (visit_depto self) w =
     for_each rest (visit_depto self)
       (advance 5
          (branch_failure url context_msg (api w) 0 (sent w) 5
           ++ [Print ("Processing Department: " +:+ snd depto)]) w)).
Proof.
  split; [|split; [|split]].
  - intros url context_msg w run. subst run. split.
    + apply fetch_navigation_robust_total.
    + unfold fetch_navigation_robust.
      apply (navigation_attempts_bounded self url context_msg _ max_retries 0 w).
      unfold log. apply keeps_bind; [|intros ?; apply keeps_ret].
      unfold emit. apply keeps_modify. reflexivity.
  - intros url context_msg w Hfail. unfold fetch_navigation_robust.
    apply (navigation_attempts_fail self url context_msg max_retries 0 w Hfail).
  - intros depto_id depto_nombre muni id_muni nom_muni rest w Hid Hnom url
      context_msg Hfail.
    cbn [for_each]. rewrite run_bind.
    rewrite (visit_muni_unreachable self depto_id depto_nombre muni id_muni
               nom_muni w Hid Hnom Hfail).
    reflexivity.
  - intros depto rest w url context_msg Hfail.
    cbn [for_each]. rewrite run_bind.
    rewrite (visit_depto_unreachable self depto w Hfail).
    reflexivity.
Qed.

Lemma discovery_failure_isolated_witness :
  fetch_navigation_robust Run.scraper "https://cne/zonas" "Zones of Tela"
    (Run.fresh Run.always_500 Run.no_cdn) =
  (Ok (VList []),
   advance 5
     (branch_failure "https://cne/zonas" "Zones of Tela" Run.always_500 0 0 5)
     (Run.fresh Run.always_500 Run.no_cdn)).
Proof.
  apply (proj1 (proj2 (discovery_failure_isolated Run.scraper))
           "https://cne/zonas" "Zones of Tela" (Run.fresh Run.always_500 Run.no_cdn)).
  intros k _. reflexivity.
Defined.

(** ** Asset store *)

Lemma asset_check_run (url : value) (full_path filename : string) (w : world) :
  asset_check url full_path filename w =
  (Ok (if negb (Py.truthy url) then Some None
       else if exists_nonempty full_path w then Some (Some filename) else None), w).
Proof.
  unfold asset_check. destruct (Py.truthy url); cbn [negb]; [|reflexivity].
  run. destruct (exists_nonempty full_path w); reflexivity.
Qed.

Lemma asset_fetch_total url full_path filename :
  total (asset_fetch url full_path filename).
Proof. unfold asset_fetch. apply total_try_except. intros _. apply total_ret. Qed.

Lemma descargar_asset_total self url folder filename :
  total (descargar_asset self url folder filename).
Proof.
  intros w. unfold descargar_asset. cbv zeta. rewrite run_bind, asset_check_run.
  destruct (negb (Py.truthy url)); [eexists; reflexivity|].
  destruct (exists_nonempty (Str.path_join folder filename) w);
    [eexists; reflexivity | apply asset_fetch_total].
Qed.





Lemma asset_fetch_keeps {X} (f : world -> X) `{!Offline f} url full_path filename :
  (forall g w, f (set_fs g w) = f w) ->
  keeps f (asset_fetch url full_path filename).
Proof.
  intros Hfs. unfold asset_fetch, download, write_file.
  repeat first
    [ apply keeps_modify; intros ?;
      rewrite ?Hfs, ?offline_sent, ?offline_trace; reflexivity
    | frame_step ].
Qed.

Lemma asset_check_keeps {X} (f : world -> X) url full_path filename :
  keeps f (asset_check url full_path filename).
Proof. intros w. rewrite asset_check_run. reflexivity. Qed.

Lemma descargar_asset_keeps {X} (f : world -> X) `{!Offline f}
    self url folder filename :
  (forall g w, f (set_fs g w) = f w) ->
  keeps f (descargar_asset self url folder filename).
Proof.
  intros Hfs. unfold descargar_asset. cbv zeta.
  apply keeps_bind; [apply asset_check_keeps|].
  intros [r|]; [apply keeps_ret | apply asset_fetch_keeps; [exact _ | exact Hfs]].
Qed.

Lemma gather_checks_keeps {X} (f : world -> X) folder tasks :
  keeps f (gather_checks folder tasks).
Proof.
  induction tasks as [|[u filename] rest IH]; cbn [gather_checks].
  - apply keeps_ret.
  - apply keeps_bind; [apply asset_check_keeps|]. intros r.
    apply keeps_bind; [exact IH | intros ?; apply keeps_ret].
Qed.

Lemma gather_fetches_keeps {X} (f : world -> X) `{!Offline f} folder pending :
  (forall g w, f (set_fs g w) = f w) ->
  keeps f (gather_fetches folder pending).
Proof.
  intros Hfs. induction pending as [|[u filename] rest IH]; cbn [gather_fetches].
  - apply keeps_ret.
  - apply keeps_bind; [apply asset_fetch_keeps; [exact _ | exact Hfs]|].
    intros _. exact IH.
Qed.

Lemma gather_assets_keeps {X} (f : world -> X) `{!Offline f} self folder tasks :
  (forall g w, f (set_fs g w) = f w) ->
  keeps f (gather_assets self folder tasks).
Proof.
  intros Hfs. unfold gather_assets.
  apply keeps_bind; [apply gather_checks_keeps|]. intros pending.
  apply gather_fetches_keeps; [exact _ | exact Hfs].
Qed.

(** ** Navigator: zone names *)

(** C8, as amended: for a zone node whose payload has no truthy [zona]
    label and whose zone code can be a dict key (a str, a number, a
    bool or null), the name the Navigator uses is the one the static
    table gives the code, with "Desconocida" for every code the table
    does not list. *)
Theorem zona_nombre_fallback (zona id_zona label : value) :
  Py.get zona "zona" VNone = Ok label ->
  Py.truthy label = false ->
  zona_id zona = Ok id_zona ->
  Py.hashable id_zona = true ->
  zona_nombre zona id_zona = Ok (zona_por_codigo id_zona) /\
  (forall code, id_zona = VStr code ->
                Py.lookup MAPA_ZONAS_DEFAULT code = None ->
                zona_nombre zona id_zona = Ok (VStr "Desconocida")) /\
  (id_zona = VNone -> zona_nombre zona id_zona = Ok (VStr "Desconocida")).
Proof.
  intros Hlabel Hfalsy _ Hhash.
  assert (Hname : zona_nombre zona id_zona = Ok (zona_por_codigo id_zona)).
  { unfold zona_nombre. rewrite Hlabel. pure_run. rewrite Hfalsy.
    unfold mapa_zonas_get. rewrite Hhash. reflexivity. }
  split; [exact Hname | split].
  - intros code -> Hcode. rewrite Hname. unfold zona_por_codigo.
    rewrite Hcode. reflexivity.
  - intros ->. rewrite Hname. reflexivity.
Qed.

Lemma zona_nombre_fallback_witness :
  zona_nombre (VDict [("cod_zona", VStr "02")]) (VStr "02") = Ok (VStr "RURAL") /\
  zona_nombre (VDict [("cod_zona", VStr "07"); ("zona", VStr "")]) (VStr "07")
  = Ok (VStr "Desconocida").
Proof.
  split.
  - exact (proj1 (zona_nombre_fallback (VDict [("cod_zona", VStr "02")]) (VStr "02")
                    VNone eq_refl eq_refl eq_refl eq_refl)).
  - exact (proj1 (zona_nombre_fallback
                    (VDict [("cod_zona", VStr "07"); ("zona", VStr "")])
                    (VStr "07") (VStr "") eq_refl eq_refl eq_refl eq_refl)).
Defined.

(** A label the server does send is kept. *)
Lemma zona_nombre_label (zona id_zona label : value) :
  Py.get zona "zona" VNone = Ok label ->
  Py.truthy label = true ->
  zona_nombre zona id_zona = Ok label.
Proof.
  intros Hlabel Htruthy. unfold zona_nombre. rewrite Hlabel. pure_run.
  rewrite Htruthy. reflexivity.
Qed.

(** C8, as stated, fails: a zone node without a label whose code
    cannot be a dict key (a list, a dict) gets no name, from the table
    or by default: the lookup raises, and with it the visit of the zone,
    before any request. *)
Lemma zona_nombre_unhashable :
  let zona := VDict [("cod_zona", VList [VInt 1])] in
  let w := Run.fresh Run.always_500 Run.no_cdn in
  Py.get zona "zona" VNone = Ok VNone /\
  zona_id zona = Ok (VList [VInt 1]) /\
  zona_nombre zona (VList [VInt 1]) = Raise TypeError /\
  visit_zona Run.scraper "01" "Atlantida" (VStr "001") (VStr "La Ceiba") zona w
  = (Raise TypeError, w).
Proof. cbv zeta. split; [|split; [|split]]; reflexivity. Qed.

(** ** Pre-filters *)

Lemma uint_value_pos (d : Decimal.uint) (p : positive) :
  uint_value (Z.pos p) d = Z.pos (Pos.of_uint_acc d p).
Proof.
  revert p. induction d; intros p; cbn [uint_value Pos.of_uint_acc];
    try reflexivity;
    match goal with
    | |- uint_value ?z _ = Z.pos (Pos.of_uint_acc _ ?q) =>
        replace z with (Z.pos q) by lia; apply IHd
    end.
Qed.

Lemma uint_value_zero (d : Decimal.uint) :
  uint_value 0 d = Z.of_N (Pos.of_uint d).
Proof.
  induction d; cbn [uint_value Pos.of_uint]; try reflexivity;
    try (change (10 * 0 + 0) with 0; exact IHd);
    match goal with
    | |- uint_value ?z _ = _ =>
        let p := eval cbv in (Z.to_pos z) in
        change z with (Z.pos p); rewrite uint_value_pos; reflexivity
    end.
Qed.

Lemma digits_uint (d : Decimal.uint) (acc : Z) :
  Str.digits acc true (list_ascii_of_string (NilEmpty.string_of_uint d)) =
  Some (uint_value acc d).
Proof.
  revert acc. induction d; intros acc; cbn [NilEmpty.string_of_uint
    list_ascii_of_string Str.digits uint_value]; try reflexivity;
    cbn; apply IHd.
Qed.

Lemma digits_nilzero (d : Decimal.uint) :
  Str.digits 0 false (list_ascii_of_string (NilZero.string_of_uint d)) =
  Some (uint_value 0 d).
Proof.
  destruct d; cbn [NilZero.string_of_uint NilEmpty.string_of_uint
    list_ascii_of_string Str.digits uint_value]; try reflexivity;
    cbn; apply digits_uint.
Qed.

Lemma numeral_char_not_space (c : ascii) :
  is_numeral_char c = true -> Str.is_space c = false.
Proof.
  destruct c as [[] [] [] [] [] [] [] []]; cbv; congruence.
Qed.

Lemma lstrip_numeral (cs : list ascii) :
  forallb is_numeral_char cs = true -> Str.lstrip cs = cs.
Proof.
  destruct cs as [|c cs]; [reflexivity|]. cbn [forallb Str.lstrip].
  intros H. apply andb_true_iff in H as [Hc _].
  rewrite (numeral_char_not_space c Hc). reflexivity.
Qed.

Lemma strip_numeral (cs : list ascii) :
  forallb is_numeral_char cs = true -> Str.strip cs = cs.
Proof.
  intros H. unfold Str.strip. rewrite (lstrip_numeral cs H).
  rewrite lstrip_numeral.
  - apply rev_involutive.
  - rewrite forallb_forall in *. intros c Hc. apply H. apply in_rev. exact Hc.
Qed.

Lemma uint_numeral (d : Decimal.uint) :
  forallb is_numeral_char (list_ascii_of_string (NilEmpty.string_of_uint d)) = true.
Proof. induction d; cbn; try reflexivity; exact IHd. Qed.

Lemma nilzero_numeral (d : Decimal.uint) :
  forallb is_numeral_char (list_ascii_of_string (NilZero.string_of_uint d)) = true.
Proof. destruct d; try reflexivity; apply (uint_numeral (_ d)). Qed.

Lemma uint_value_lower (d : Decimal.uint) (acc : Z) :
  0 <= acc -> acc * 10 ^ Z.of_nat (Decimal.nb_digits d) <= uint_value acc d.
Proof.
  revert acc. induction d as [|d IH|d IH|d IH|d IH|d IH|d IH|d IH|d IH|d IH|d IH];
    intros acc Hacc; cbn [uint_value Decimal.nb_digits];
    [rewrite Z.pow_0_r; lia|..];
    rewrite Nat2Z.inj_succ, Z.pow_succ_r by lia;
    match goal with
    | |- _ <= uint_value ?a _ =>
        specialize (IH a ltac:(lia));
        assert (0 < 10 ^ Z.of_nat (Decimal.nb_digits d)) by (apply Z.pow_pos_nonneg; lia);
        nia
    end.
Qed.

Lemma to_uint_head (p : positive) (d : Decimal.uint) : Pos.to_uint p <> Decimal.D0 d.
Proof.
  assert (Hnorm : Pos.to_uint p = Decimal.unorm (Pos.to_uint p)).
  { rewrite <- DecimalPos.Unsigned.to_of, DecimalPos.Unsigned.of_to. reflexivity. }
  rewrite Hnorm. unfold Decimal.unorm.
  destruct (Decimal.nzhead (Pos.to_uint p)) eqn:Hhead;
    try discriminate.
  - intros _. apply (DecimalPos.Unsigned.to_uint_nonzero p).
    rewrite Hnorm. unfold Decimal.unorm. rewrite Hhead. reflexivity.
  - exfalso. exact (DecimalFacts.nzhead_nonzero _ _ Hhead).
Qed.

(** A printed positive has as many digits as its size allows. *)
Lemma to_uint_digits (p : positive) (k : nat) :
  Z.pos p < 10 ^ Z.of_nat k -> (Decimal.nb_digits (Pos.to_uint p) <= k)%nat.
Proof.
  intros Hp.
  assert (Hvalue : uint_value 0 (Pos.to_uint p) = Z.pos p)
    by (rewrite uint_value_zero, DecimalPos.Unsigned.of_to; reflexivity).
  pose proof (to_uint_head p) as Hhead.
  destruct (Pos.to_uint p) as [|d|d|d|d|d|d|d|d|d|d];
    [cbn; lia | exfalso; exact (Hhead d eq_refl) |..];
    cbn [uint_value Decimal.nb_digits] in *;
    match type of Hvalue with
    | uint_value ?a _ = _ => pose proof (uint_value_lower d a ltac:(lia)) as Hlow
    end;
    assert (Hlt : 10 ^ Z.of_nat (Decimal.nb_digits d) < 10 ^ Z.of_nat k)
      by (assert (0 < 10 ^ Z.of_nat (Decimal.nb_digits d))
            by (apply Z.pow_pos_nonneg; lia); nia);
    apply Z.pow_lt_mono_r_iff in Hlt; lia.
Qed.

Lemma length_string_of_uint (d : Decimal.uint) :
  length (list_ascii_of_string (NilEmpty.string_of_uint d)) = Decimal.nb_digits d.
Proof. induction d; cbn; congruence. Qed.

Lemma count_digits_to_uint (p : positive) :
  Z.pos p < 10 ^ Z.of_nat Str.max_str_digits ->
  (Str.max_str_digits <?
   Str.count_digits (list_ascii_of_string (NilZero.string_of_uint (Pos.to_uint p))))%nat
  = false.
Proof.
  intros Hp. apply Nat.ltb_ge.
  etransitivity; [apply filter_length_le|].
  pose proof (to_uint_digits p _ Hp) as Hdigits.
  pose proof (DecimalPos.Unsigned.to_uint_nonnil p) as Hnil.
  destruct (Pos.to_uint p) eqn:Hd; [congruence|..];
    rewrite <- Hd in *;
    (replace (NilZero.string_of_uint (Pos.to_uint p))
       with (NilEmpty.string_of_uint (Pos.to_uint p)) by (rewrite Hd; reflexivity));
    rewrite length_string_of_uint; exact Hdigits.
Qed.

(** [int(str(n))] is [n], for an int [str] prints. *)
Lemma to_int_decimal (n : Z) :
  Z.abs n < 10 ^ Z.of_nat Str.max_str_digits -> Str.to_int (Str.decimal n) = Ok n.
Proof.
  intros Hn. destruct n as [|p|p].
  - vm_compute. reflexivity.
  - unfold Str.to_int, Str.decimal. cbn [Z.to_int NilZero.string_of_int].
    cbv zeta.
    rewrite strip_numeral by apply nilzero_numeral.
    rewrite count_digits_to_uint by exact Hn.
    pose proof (digits_nilzero (Pos.to_uint p)) as Hd.
    rewrite uint_value_zero, DecimalPos.Unsigned.of_to in Hd.
    destruct (list_ascii_of_string (NilZero.string_of_uint (Pos.to_uint p)))
      as [|c cs] eqn:Hcs.
    + discriminate Hd.
    + assert (Hc : Str.digit_of c <> None).
      { cbn [Str.digits] in Hd. destruct (Str.digit_of c); [discriminate|].
        rewrite andb_false_r in Hd. discriminate Hd. }
      assert (Ascii.eqb c "-" = false /\ Ascii.eqb c "+" = false) as [-> ->].
      { destruct c as [[] [] [] [] [] [] [] []]; cbv in Hc |- *; split; congruence. }
      rewrite Hd. reflexivity.
  - unfold Str.to_int, Str.decimal. cbn [Z.to_int NilZero.string_of_int].
    cbv zeta. cbn [list_ascii_of_string].
    rewrite strip_numeral
      by (cbn [forallb]; rewrite nilzero_numeral; reflexivity).
    change (Str.count_digits ("-"%char :: ?cs)) with (Str.count_digits cs).
    rewrite count_digits_to_uint by exact Hn.
    cbn [Ascii.eqb Bool.eqb]. rewrite digits_nilzero.
    rewrite uint_value_zero, DecimalPos.Unsigned.of_to. reflexivity.
Qed.

Lemma int64_printed (n : Z) :
  int64 n = true -> Z.abs n < 10 ^ Z.of_nat Str.max_str_digits.
Proof.
  unfold int64. intros H. apply andb_true_iff in H as [Hlo Hhi].
  apply Z.leb_le in Hlo. apply Z.ltb_lt in Hhi.
  assert (Hbig : 2 ^ 63 < 10 ^ Z.of_nat Str.max_str_digits)
    by (vm_compute; reflexivity).
  lia.
Qed.

Lemma carries_number_keys (id_jrv : value) (n : Z) :
  carries_number id_jrv n ->
  int64 n = true ->
  Py.int id_jrv = Ok n /\ Str.to_int (Py.str id_jrv) = Ok n.
Proof.
  intros [-> | (s & -> & Hs)] H64; cbn [Py.int Py.str Py.repr].
  - split; [reflexivity | apply to_int_decimal, int64_printed, H64].
  - split; exact Hs.
Qed.

Lemma verify_db_existance_stored self n w :
  int64 n = true -> is_Some (db w !! n) ->
  verify_db_existance self n w = (Ok true, w).
Proof.
  intros H64 Hthere. unfold verify_db_existance, bind. rewrite H64.
  rewrite run_bind, run_lift. unfold gets.
  rewrite bool_decide_eq_true_2 by exact Hthere. reflexivity.
Qed.

Lemma visit_mesa_stored self mesa id_jrv n ids_geo noms_geo w :
  station_id mesa = Ok id_jrv ->
  Py.truthy id_jrv = true ->
  carries_number id_jrv n ->
  int64 n = true ->
  is_Some (db w !! n) ->
  visit_mesa self ids_geo noms_geo mesa w = (Ok tt, w).
Proof.
  intros Hid Htruthy Hn H64 Hthere.
  destruct (carries_number_keys id_jrv n Hn H64) as [Hnav _].
  unfold visit_mesa. rewrite run_bind, Hid, run_lift. rewrite Htruthy.
  rewrite run_bind. rewrite run_bind, Hnav, run_lift.
  rewrite (verify_db_existance_stored self n w H64 Hthere). reflexivity.
Qed.

Lemma procesar_mesa_task_stored self mesa id_jrv n ids_geo noms_geo w :
  station_id mesa = Ok id_jrv ->
  Py.truthy id_jrv = true ->
  carries_number id_jrv n ->
  int64 n = true ->
  is_Some (db w !! n) ->
  procesar_mesa_task self mesa ids_geo noms_geo w = (Ok tt, w).
Proof.
  intros Hid Htruthy Hn H64 Hthere.
  destruct (carries_number_keys id_jrv n Hn H64) as [_ Hworker].
  unfold procesar_mesa_task. rewrite run_bind, Hid, run_lift. rewrite Htruthy.
  cbn [negb]. cbv zeta. rewrite run_bind, Hworker, run_lift.
  rewrite run_bind, (verify_db_existance_stored self n w H64 Hthere). reflexivity.
Qed.

(** C3: a station whose id already exists in the persistence store
    (whose keys are SQLite's 64-bit integers) is skipped by both
    pre-filters: the Navigator enqueues nothing and the handler returns,
    each leaving the world exactly as it was, so that no upstream call
    and no write is made for it. *)
Theorem persisted_station_skipped self mesa id_jrv n ids_geo noms_geo w :
  station_id mesa = Ok id_jrv ->
  Py.truthy id_jrv = true ->
  carries_number id_jrv n ->
  int64 n = true ->
  is_Some (db w !! n) ->
  visit_mesa self ids_geo noms_geo mesa w = (Ok tt, w) /\
  procesar_mesa_task self mesa ids_geo noms_geo w = (Ok tt, w).
Proof.
  intros Hid Htruthy Hn H64 Hthere. split.
  - apply (visit_mesa_stored self mesa id_jrv n); assumption.
  - apply (procesar_mesa_task_stored self mesa id_jrv n); assumption.
Qed.

(** A second pass over station 42, once a first pass has stored it. *)
Lemma persisted_station_skipped_witness :
  let w1 := snd (procesar_mesa_task Run.scraper Run.mesa_42 Run.ids_42 Run.noms_42
                   (Run.fresh Run.tally Run.no_cdn)) in
  visit_mesa Run.scraper Run.ids_42 Run.noms_42 Run.mesa_42 w1 = (Ok tt, w1) /\
  procesar_mesa_task Run.scraper Run.mesa_42 Run.ids_42 Run.noms_42 w1 = (Ok tt, w1).
Proof.
  cbv zeta.
  apply (persisted_station_skipped Run.scraper Run.mesa_42 (VInt 42) 42).
  - reflexivity.
  - reflexivity.
  - left; reflexivity.
  - reflexivity.
  - eexists. vm_compute. reflexivity.
Defined.

(** C10: a station payload with a falsy id (no [numero] and no [jrv],
    or a zero or empty value) makes the handler return at once, the
    world untouched: no request, no write; the Navigator, whose skip
    applies only when an id is present, enqueues the item all the
    same. *)
Theorem falsy_station_id self mesa id_jrv ids_geo noms_geo w :
  station_id mesa = Ok id_jrv ->
  Py.truthy id_jrv = false ->
  procesar_mesa_task self mesa ids_geo noms_geo w = (Ok tt, w) /\
  visit_mesa self ids_geo noms_geo mesa w =
  (Ok tt, set_queue (queue w ++ [(mesa, ids_geo, noms_geo)]) w).
Proof.
  intros Hid Hfalsy. split.
  - unfold procesar_mesa_task. rewrite run_bind, Hid, run_lift.
    rewrite Hfalsy. reflexivity.
  - unfold visit_mesa. rewrite run_bind, Hid, run_lift.
    rewrite Hfalsy. reflexivity.
Qed.

Lemma falsy_station_id_witness :
  let mesa := VDict [("numero", VInt 0); ("nombre_archivo", VStr "https://cne/a.pdf")] in
  let g := {| depto := VStr "01"; muni := VStr "001"; zona := VStr "01";
              centro := VStr "0001" |} in
  let w := Run.fresh Run.always_500 Run.no_cdn in
  procesar_mesa_task Run.scraper mesa g g w = (Ok tt, w) /\
  visit_mesa Run.scraper g g mesa w = (Ok tt, set_queue [(mesa, g, g)] w).
Proof.
  cbv zeta.
  apply (falsy_station_id Run.scraper
           (VDict [("numero", VInt 0); ("nombre_archivo", VStr "https://cne/a.pdf")])
           VNone
           {| depto := VStr "01"; muni := VStr "001"; zona := VStr "01";
              centro := VStr "0001" |}
           {| depto := VStr "01"; muni := VStr "001"; zona := VStr "01";
              centro := VStr "0001" |}
           (Run.fresh Run.always_500 Run.no_cdn)); reflexivity.
Defined.

(** A second pass over a center whose stations are all stored enqueues
    nothing and leaves the world as it was. *)
Lemma stored_stations_skipped self ids_geo noms_geo mesas w :
  Forall (stored_station w) mesas ->
  for_in (VList mesas) (visit_mesa self ids_geo noms_geo) w = (Ok tt, w).
Proof.
  unfold for_in. rewrite run_bind. cbn [Py.iter]. rewrite run_lift.
  induction 1 as [|mesa rest (id_jrv & n & Hid & Ht & Hn & H64 & Hthere) _ IH];
    cbn [for_each].
  - reflexivity.
  - rewrite run_bind.
    rewrite (visit_mesa_stored self mesa id_jrv n ids_geo noms_geo w Hid Ht Hn H64 Hthere).
    exact IH.
Qed.

(** A station the handler has stored is a stored station from then on:
    handling it again is a no-op. *)
Lemma handled_twice self mesa id_jrv n ids_geo noms_geo w :
  station_id mesa = Ok id_jrv ->
  Py.truthy id_jrv = true ->
  carries_number id_jrv n ->
  int64 n = true ->
  let w1 := snd (procesar_mesa_task self mesa ids_geo noms_geo w) in
  is_Some (db w1 !! n) ->
  procesar_mesa_task self mesa ids_geo noms_geo w1 = (Ok tt, w1).
Proof.
  intros Hid Ht Hn H64 w1 Hthere.
  apply (procesar_mesa_task_stored self mesa id_jrv n); assumption.
Qed.

(** ** Record builder *)

(** On integer counts [sum] is the integer sum. *)
Lemma sum_from_counts (vs : list value) (acc : Z) :
  forallb is_count vs = true ->
  Py.sum_from (Int acc) vs = Ok (Int (acc + sum_counts vs)).
Proof.
  revert acc. induction vs as [|v vs IH]; intros acc Hall; cbn [Py.sum_from].
  - cbn. f_equal. f_equal. lia.
  - cbn [forallb] in Hall. apply andb_true_iff in Hall as [Hv Hall].
    pure_run. destruct v; try discriminate Hv;
      cbn [Py.add Py.number_of Py.plus]; rewrite IH by exact Hall;
      unfold sum_counts; cbn [foldr count_of]; do 2 f_equal; lia.
Qed.

Lemma totals_of_counts (votes : list value) (validos blancos nulos total : number)
    (column : sql_value) :
  Py.sum votes = Ok validos ->
  integer_column validos = Ok column ->
  (partial ← Py.plus validos blancos; Py.plus partial nulos) = Ok total ->
  forallb is_count votes = true ->
  validos = Int (sum_counts votes) /\
  column = SqlInteger (sum_counts votes) /\
  forall b n, blancos = Int b -> nulos = Int n ->
              total = Int (sum_counts votes + b + n).
Proof.
  intros Hsum Hbind Htotal Hcounts. unfold Py.sum in Hsum.
  rewrite (sum_from_counts votes 0 Hcounts) in Hsum. injection Hsum as <-.
  replace (0 + sum_counts votes) with (sum_counts votes) in * by lia.
  split; [reflexivity|]. split.
  - unfold integer_column in Hbind. cbn [Py.value_of bind] in Hbind.
    destruct (int64 (sum_counts votes)); pure_run; congruence.
  - intros b n -> ->. pure_run. cbn [Py.plus] in Htotal. congruence.
Qed.

Lemma before_truncated (sep : ascii) (s : string) :
  truncated_at sep s (Str.before sep s).
Proof.
  unfold truncated_at, Str.has_char.
  induction s as [|c s [Hfree (rest & Hs & Hrest)]]; cbn [Str.before].
  - split; [reflexivity|]. exists "". split; [reflexivity | left; reflexivity].
  - destruct (Ascii.eqb c sep) eqn:Hc.
    + split; [reflexivity|]. apply Ascii.eqb_eq in Hc as ->.
      exists (String sep s). split; [reflexivity | right; eexists; reflexivity].
    + split.
      * cbn [list_ascii_of_string existsb]. rewrite Ascii.eqb_sym, Hc. exact Hfree.
      * exists rest. split; [|exact Hrest].
        change (String c s = String c (Str.before sep s +:+ rest)).
        f_equal. exact Hs.
Qed.

Lemma strip_token_urls (url_pdf origen : value) :
  strip_token url_pdf = Ok origen ->
  (Py.truthy url_pdf = true ->
   exists s prefix, url_pdf = VStr s /\ origen = VStr prefix /\
                    truncated_at "?" s prefix) /\
  (Py.truthy url_pdf = false -> origen = VNone) /\
  (url_pdf = VNone -> origen = VNone).
Proof.
  unfold strip_token. intros H. split; [|split].
  - intros Ht. rewrite Ht in H. destruct url_pdf; try discriminate H.
    injection H as <-. exists s, (Str.before "?" s).
    split; [reflexivity | split; [reflexivity | apply before_truncated]].
  - intros Hf. rewrite Hf in H. congruence.
  - intros ->. cbn in H. congruence.
Qed.

Lemma build_record_store self mesa ids_geo noms_geo n id_str data w :
  wp (build_record self mesa ids_geo noms_geo n id_str data) w
     (store_after mesa n data (db w)).
Proof.
  unfold build_record. cbv zeta.
  apply wp_lift. destruct (extraer_votos (snd (fst data))) as [blancos|e] eqn:Hb;
    [|left; reflexivity].
  apply wp_lift. destruct (extraer_votos (snd data)) as [nulos|e] eqn:Hn;
    [|left; reflexivity].
  apply wp_lift.
  destruct (Py.contains "candidatos" (Py.or (snd (fst (fst data))) (VDict [])))
    as [has|e]; [|left; reflexivity].
  apply wp_bind.
  match goal with
  | |- wp ?m _ _ =>
      assert (Hm : keeps db m) by (destruct has; [apply keeps_lift | apply keeps_ret]);
      apply (wp_keeps db m _ _ Hm); clear Hm
  end.
  intros [built|e] w1 H1; [|left; exact H1].
  apply wp_bind. apply (wp_keeps db).
  { apply gather_assets_keeps; [exact _ | reflexivity]. }
  intros [[]|e] w2 H2; [|left; congruence].
  apply wp_lift.
  destruct (Py.sum (map votos (fst built))) as [validos|e] eqn:Hsum;
    [|left; congruence].
  apply wp_lift.
  match goal with
  | |- match ?r with _ => _ end =>
      destruct r as [urna|e] eqn:Hurna; [|left; congruence]
  end.
  apply wp_lift.
  destruct (Py.get mesa "nombre_archivo" VNone) as [url_pdf|e] eqn:Hurl;
    [|left; congruence].
  apply wp_bind.
  match goal with
  | |- wp ?m _ _ =>
      assert (Hm : keeps db m);
      [| apply (wp_keeps db m _ _ Hm); clear Hm ]
  end.
  { destruct (Py.truthy url_pdf); [|apply keeps_ret].
    apply keeps_bind; [apply descargar_asset_keeps; [exact _ | reflexivity]|].
    intros _. frame. }
  intros [pdf_local|e] w3 H3; [|left; congruence].
  apply wp_bind. apply (wp_keeps db).
  { apply now_keeps. reflexivity. }
  intros [extraccion|e] w4 H4; [|left; congruence].
  repeat (apply wp_lift;
          match goal with
          | |- match ?r with _ => _ end =>
              let H := fresh "Hget" in
              destruct r eqn:H; [|left; congruence]
          end).
  unfold wp, try_except, insert_or_replace. run. cbn [bind].
  destruct (int64 n); [|left; cbn; congruence].
  destruct (bind (depto noms_geo)) as [depto_nom|e]; [|left; cbn; congruence].
  destruct (bind (muni noms_geo)) as [muni_nom|e]; [|left; cbn; congruence].
  destruct (bind (centro noms_geo)) as [centro_nom|e]; [|left; cbn; congruence].
  destruct (integer_column validos) as [column|e] eqn:Hcolumn;
    [|left; cbn; congruence].
  right. eexists. cbn [fst snd db set_db set_trace set_clock].
  split; [reflexivity|]. split; [f_equal; congruence|].
  unfold record_built, totals_computed, urls_recorded.
  cbn [col_id_jrv col_json id_jrv estadisticas votos_blancos votos_nulos
       votos_validos_calc total_votos_calculados col_votos_validos_calculados
       detalle_resultados documentos url_tokenizada url_origen].
  split; [reflexivity|]. split; [reflexivity|]. split; [exact Hb|].
  split; [exact Hn|]. split.
  - split; [exact Hsum|]. split; [exact Hcolumn|]. split; [exact Hurna|].
    apply (totals_of_counts _ validos blancos nulos urna column);
      assumption.
  - match goal with
    | H : strip_token ?u = Ok ?o |- _ =>
        destruct (strip_token_urls u o H) as (Ht & Hf & Hnone)
    end.
    exists url_pdf.
    split; [exact Hurl|]. split; [reflexivity|]. split; [exact Ht|].
    split; [exact Hf|]. intros ->. split; [apply Hnone; reflexivity | reflexivity].
Qed.

Lemma fetch_station_data_keeps {X} (f : world -> X) `{!Offline f} self n ids_geo :
  keeps f (fetch_station_data self n ids_geo).
Proof.
  unfold fetch_station_data, sleep. cbv zeta.
  repeat first
    [ apply fetch_keeps; exact _ | apply emit_keeps; exact _ | frame_step ].
Qed.

Lemma fetch_station_data_total self n ids_geo :
  total (fetch_station_data self n ids_geo).
Proof.
  unfold fetch_station_data, sleep, emit. cbv zeta.
  repeat first [ apply fetch_total | frame_step ].
Qed.

Lemma verify_db_existance_keeps {X} (f : world -> X) self n :
  keeps f (verify_db_existance self n).
Proof. unfold verify_db_existance. frame. Qed.

Lemma verify_db_existance_found self n w :
  fst (verify_db_existance self n w) = Ok false -> db w !! n = None.
Proof.
  unfold verify_db_existance, bind. destruct (int64 n); [|discriminate].
  rewrite run_bind, run_lift. unfold gets. cbn [fst].
  intros H. injection H as H. apply bool_decide_eq_false in H.
  destruct (db w !! n) eqn:Hn; [|reflexivity]. exfalso. apply H. eexists; reflexivity.
Qed.

(** What the handler leaves in the store: nothing new, or the row of a
    station that was not there, built as specified from the answers of
    the five data calls. *)
Lemma procesar_mesa_task_store self mesa ids_geo noms_geo w :
  let run := procesar_mesa_task self mesa ids_geo noms_geo w in
  db (snd run) = db w \/
  exists n data row,
    fst run = Ok tt /\ db (snd run) = <[n := row]> (db w) /\ db w !! n = None /\
    record_built mesa n data row.
Proof.
  cbv zeta. unfold procesar_mesa_task.
  rewrite run_bind, run_lift. destruct (station_id mesa) as [id_jrv|e];
    [|left; reflexivity].
  destruct (negb (Py.truthy id_jrv)); [left; reflexivity|]. cbv zeta.
  rewrite run_bind, run_lift. destruct (Str.to_int (Py.str id_jrv)) as [n|e];
    [|left; reflexivity].
  rewrite run_bind.
  pose proof (verify_db_existance_keeps db self n w) as Hkeep.
  pose proof (verify_db_existance_found self n w) as Hfound.
  destruct (verify_db_existance self n w) as [[[|]|e] w1]; cbn [fst snd] in *;
    try (left; exact Hkeep).
  specialize (Hfound eq_refl).
  rewrite run_bind.
  pose proof (fetch_station_data_keeps db self n ids_geo w1) as Hdata.
  destruct (fetch_station_data self n ids_geo w1) as [[data|e] w2];
    cbn [fst snd] in *; [|left; congruence].
  pose proof (build_record_store self mesa ids_geo noms_geo n (Py.str id_jrv)
                data w2) as Hbuild.
  unfold wp, store_after in Hbuild.
  destruct Hbuild as [Hsame | (row & Hr & Hdb & Hrow)].
  - left. congruence.
  - right. exists n, data, row.
    split; [exact Hr | split; [rewrite Hdb; congruence | split]].
    + exact Hfound.
    + exact Hrow.
Qed.

Lemma handler_row self mesa ids_geo noms_geo w k row :
  db (snd (procesar_mesa_task self mesa ids_geo noms_geo w)) !! k = Some row ->
  db w !! k = Some row \/
  exists data, db w !! k = None /\ record_built mesa k data row.
Proof.
  intros Hrow.
  destruct (procesar_mesa_task_store self mesa ids_geo noms_geo w)
    as [Hsame | (n & data & row' & _ & Hdb & Hnew & Hbuilt)].
  - left. rewrite <- Hsame. exact Hrow.
  - rewrite Hdb in Hrow. destruct (decide (n = k)) as [->|Hne].
    + rewrite lookup_insert_eq in Hrow. injection Hrow as <-.
      right. exists data. split; assumption.
    + rewrite lookup_insert_ne in Hrow by exact Hne. left. exact Hrow.
Qed.

(** C1, as amended: every row the handler leaves in the store is a row
    that was there before, or a record whose valid-vote count is the sum
    of its candidates' votes, whose column holds that count as SQLite
    stores it in an INTEGER column (the number, or NULL for NaN) and
    whose total is that sum
    plus the blank and the null tally, as Python adds numbers; on
    integer counts these are the integer sums. *)
Theorem persisted_totals_computed self mesa ids_geo noms_geo w k row :
  db (snd (procesar_mesa_task self mesa ids_geo noms_geo w)) !! k = Some row ->
  db w !! k = Some row \/ totals_computed row.
Proof.
  intros Hrow.
  destruct (handler_row self mesa ids_geo noms_geo w k row Hrow)
    as [Hold | (data & _ & Hbuilt)]; [left; exact Hold | right].
  apply Hbuilt.
Qed.

(** C9: every row the handler leaves in the store is a row that was
    there before, or a record whose tokenized URL is the station's
    document URL as it came, whose source URL is that URL cut at the
    first "?", and whose two URLs are null when the station payload has
    no document URL. *)
Theorem persisted_urls_recorded self mesa ids_geo noms_geo w k row :
  db (snd (procesar_mesa_task self mesa ids_geo noms_geo w)) !! k = Some row ->
  db w !! k = Some row \/ urls_recorded mesa row.
Proof.
  intros Hrow.
  destruct (handler_row self mesa ids_geo noms_geo w k row Hrow)
    as [Hold | (data & _ & Hbuilt)]; [left; exact Hold | right].
  apply Hbuilt.
Qed.

(** The first pass over station 42: 10 + 5 valid votes, 2 blank and 2
    null, whatever totals the results payload carries. *)
Lemma persisted_totals_computed_witness :
  db Run.first_pass !! 42 = Some Run.row_42 /\
  totals_computed Run.row_42 /\
  total_votos_calculados (estadisticas (col_json Run.row_42)) = Int 19.
Proof.
  assert (Hrow : db Run.first_pass !! 42 = Some Run.row_42)
    by (vm_compute; reflexivity).
  split; [exact Hrow | split; [|reflexivity]].
  destruct (persisted_totals_computed Run.scraper Run.mesa_42 Run.ids_42 Run.noms_42
              (Run.fresh Run.tally Run.no_cdn) 42 Run.row_42 Hrow) as [Hold | Hnew].
  - vm_compute in Hold. discriminate Hold.
  - exact Hnew.
Defined.

(** C1, as stated, fails: a candidate whose vote count is NaN gives a
    persisted record whose valid-vote count is NaN in the document,
    while the column holds NULL and not that count. *)
Lemma nan_votes_null_column :
  let w' := snd (procesar_mesa_task Run.scraper Run.mesa_42 Run.ids_42 Run.noms_42
                   (Run.fresh Malformed.nan_votes Run.no_cdn)) in
  exists row,
    db w' !! 42 = Some row /\
    map votos (detalle_resultados (col_json row)) = [VFloat PrimFloat.nan] /\
    votos_validos_calc (estadisticas (col_json row)) = Real PrimFloat.nan /\
    total_votos_calculados (estadisticas (col_json row)) = Real PrimFloat.nan /\
    col_votos_validos_calculados row = SqlNull.
Proof.
  cbv zeta. eexists. split; [vm_compute; reflexivity|].
  split; [|split; [|split]]; reflexivity.
Qed.

Lemma persisted_urls_recorded_witness :
  urls_recorded Run.mesa_42 Run.row_42 /\
  url_origen (documentos (col_json Run.row_42)) = VStr "https://cne/actas/42.pdf" /\
  url_tokenizada (documentos (col_json Run.row_42))
  = VStr "https://cne/actas/42.pdf?token=abc".
Proof.
  assert (Hrow : db Run.first_pass !! 42 = Some Run.row_42)
    by (vm_compute; reflexivity).
  split; [|split; reflexivity].
  destruct (persisted_urls_recorded Run.scraper Run.mesa_42 Run.ids_42 Run.noms_42
              (Run.fresh Run.tally Run.no_cdn) 42 Run.row_42 Hrow) as [Hold | Hnew].
  - vm_compute in Hold. discriminate Hold.
  - exact Hnew.
Defined.

Lemma keyed_or_falsy_get (v : value) (k : string) (default : value) :
  keyed_or_falsy v = true ->
  exists x, Py.get (Py.or v (VDict [])) k default = Ok x.
Proof.
  unfold Py.or. destruct v as [| b | n | f | s | l | d]; cbn.
  all: try (intros H; apply negb_true_iff in H; rewrite H; eexists; reflexivity).
  all: intros _; try (eexists; reflexivity).
  destruct d; eexists; reflexivity.
Qed.

Lemma url_usable_strip (url_pdf : value) :
  url_usable url_pdf = true -> exists origen, strip_token url_pdf = Ok origen.
Proof.
  unfold strip_token. destruct url_pdf as [| b | n | f | s | l | d]; cbn.
  all: try (intros H; apply negb_true_iff in H; rewrite H; eexists; reflexivity).
  all: intros _; try (eexists; reflexivity).
  destruct (negb (String.eqb s "")); eexists; reflexivity.
Qed.

Lemma storable_bind (v : value) : storable v = true -> exists x, bind v = Ok x.
Proof.
  unfold storable. destruct (bind v) as [x|]; [eexists; reflexivity | discriminate].
Qed.

(** With no candidate results and no special votes, [build_record]
    stores the all-zero record. *)
Lemma build_record_absent self mesa ids_geo noms_geo n id_str data_val data_suf
    url_pdf w :
  int64 n = true ->
  keyed_or_falsy data_val = true ->
  keyed_or_falsy data_suf = true ->
  Py.get mesa "nombre_archivo" VNone = Ok url_pdf ->
  url_usable url_pdf = true ->
  storable (depto noms_geo) = true ->
  storable (muni noms_geo) = true ->
  storable (centro noms_geo) = true ->
  wp (build_record self mesa ids_geo noms_geo n id_str
        (data_val, data_suf, VNone, VNone, VNone)) w
     (fun r w' => r = Ok tt /\
                  exists row, db w' = <[n := row]> (db w) /\ all_zero row).
Proof.
  intros H64 Hval Hsuf Hurl Husable Hdepto Hmuni Hcentro.
  unfold build_record. cbv zeta. cbn [fst snd].
  change (Py.or VNone (VDict [])) with (VDict []).
  apply wp_lift. cbn [extraer_votos].
  apply wp_lift. cbn [extraer_votos].
  apply wp_lift. cbn [Py.contains Py.has_key Py.lookup].
  apply wp_bind. apply wp_ret. cbn [fst snd gather_assets].
  apply wp_bind. apply wp_ret.
  apply wp_lift. cbn [map Py.sum Py.sum_from].
  apply wp_lift. cbn [Py.plus]. pure_run.
  apply wp_lift. rewrite Hurl.
  apply wp_bind. apply (wp_total_keeps db).
  { destruct (Py.truthy url_pdf); [|apply total_ret].
    apply total_bind; [apply descargar_asset_total|]. intros _. frame. }
  { destruct (Py.truthy url_pdf); [|apply keeps_ret].
    apply keeps_bind; [apply descargar_asset_keeps; [exact _ | reflexivity]|].
    intros _. frame. }
  intros pdf_local w1 H1.
  apply wp_bind. apply (wp_total_keeps db).
  { unfold now. frame. }
  { apply now_keeps. reflexivity. }
  intros extraccion w2 H2.
  apply wp_lift. cbn [Py.get Py.lookup].
  repeat (apply wp_lift;
          match goal with
          | |- match Py.get (Py.or ?v _) ?k ?d with _ => _ end =>
              let x := fresh "x" in
              let Hx := fresh "Hx" in
              destruct (keyed_or_falsy_get v k d ltac:(assumption)) as [x Hx];
              rewrite Hx
          end).
  apply wp_lift. destruct (url_usable_strip url_pdf Husable) as [origen ->].
  destruct (storable_bind _ Hdepto) as [depto_nom Hdepto_nom].
  destruct (storable_bind _ Hmuni) as [muni_nom Hmuni_nom].
  destruct (storable_bind _ Hcentro) as [centro_nom Hcentro_nom].
  unfold wp, try_except, insert_or_replace. run. cbn [bind].
  rewrite H64, Hdepto_nom, Hmuni_nom, Hcentro_nom.
  assert (H0 : integer_column (Int 0) = Ok (SqlInteger 0)) by reflexivity.
  rewrite H0.
  cbn [fst snd db set_db set_trace set_clock].
  split; [reflexivity|]. eexists. split.
  - f_equal. congruence.
  - unfold all_zero. cbn. repeat split; reflexivity.
Qed.

(** C5, as amended: given a station (its id a 64-bit number not yet
    stored, its document URL a str or missing, its geography names
    bindable) whose candidate-results, blank-vote and null-vote calls
    return absent and whose validity and turnout calls return absent or
    a keyed object, the handler returns normally and has stored a record
    with no candidates and valid, blank, null and total votes all 0. *)
Theorem absent_data_zero_record self mesa id_jrv n ids_geo noms_geo data_val data_suf
    url_pdf w :
  station_id mesa = Ok id_jrv ->
  Py.truthy id_jrv = true ->
  Str.to_int (Py.str id_jrv) = Ok n ->
  int64 n = true ->
  db w !! n = None ->
  fst (fetch_station_data self n ids_geo w)
  = Ok (data_val, data_suf, VNone, VNone, VNone) ->
  keyed_or_falsy data_val = true ->
  keyed_or_falsy data_suf = true ->
  Py.get mesa "nombre_archivo" VNone = Ok url_pdf ->
  url_usable url_pdf = true ->
  storable (depto noms_geo) = true ->
  storable (muni noms_geo) = true ->
  storable (centro noms_geo) = true ->
  let run := procesar_mesa_task self mesa ids_geo noms_geo w in
  fst run = Ok tt /\
  exists row, db (snd run) = <[n := row]> (db w) /\ db (snd run) !! n = Some row /\
              all_zero row.
Proof.
  intros Hid Htruthy Hn H64 Hnew Hdata Hval Hsuf Hurl Husable Hdepto Hmuni Hcentro.
  cbv zeta. unfold procesar_mesa_task.
  rewrite run_bind, Hid, run_lift. rewrite Htruthy. cbn [negb]. cbv zeta.
  rewrite run_bind, Hn, run_lift. rewrite run_bind.
  assert (Hverify : verify_db_existance self n w = (Ok false, w)).
  { unfold verify_db_existance, bind. rewrite H64. rewrite run_bind, run_lift.
    unfold gets. rewrite bool_decide_eq_false_2; [reflexivity|].
    rewrite Hnew. intros [x Hx]. discriminate Hx. }
  rewrite Hverify. rewrite run_bind.
  pose proof (fetch_station_data_keeps db self n ids_geo w) as Hkeep.
  destruct (fetch_station_data self n ids_geo w) as [r w1]. cbn [fst snd] in *.
  subst r.
  pose proof (build_record_absent self mesa ids_geo noms_geo n (Py.str id_jrv)
                data_val data_suf url_pdf w1 H64 Hval Hsuf Hurl Husable Hdepto
                Hmuni Hcentro) as [Hok (row & Hdb & Hzero)].
  split; [exact Hok|]. exists row. rewrite Hdb, Hkeep.
  split; [reflexivity | split; [apply lookup_insert_eq | exact Hzero]].
Qed.

Lemma absent_data_zero_record_witness :
  let run := procesar_mesa_task Run.scraper Run.mesa_42 Run.ids_42 Run.noms_42
               (Run.fresh Run.silent Run.no_cdn) in
  fst run = Ok tt /\
  exists row, db (snd run) = <[42 := row]> ∅ /\ db (snd run) !! 42 = Some row /\
              all_zero row.
Proof.
  apply (absent_data_zero_record Run.scraper Run.mesa_42 (VInt 42) 42 Run.ids_42
           Run.noms_42 VNone VNone (VStr "https://cne/actas/42.pdf?token=abc")
           (Run.fresh Run.silent Run.no_cdn));
    reflexivity.
Defined.

(** C5, as stated, fails: with the candidate-results, blank-vote and
    null-vote calls absent, a validity summary that comes wrapped in a
    list makes the handler raise; nothing is stored. *)
Lemma wrapped_summary_aborts :
  let w := Run.fresh Malformed.wrapped_summary Run.no_cdn in
  let run := procesar_mesa_task Run.scraper Run.mesa_42 Run.ids_42 Run.noms_42 w in
  fst (fetch_station_data Run.scraper 42 Run.ids_42 w)
  = Ok (VList [VDict [("publicadas", VInt 1)]], VNone, VNone, VNone, VNone) /\
  fst run = Raise AttributeError /\
  db (snd run) = ∅.
Proof. cbv zeta. split; [|split]; vm_compute; reflexivity. Qed.

(** So does a malformed field: a null vote count cannot be summed. *)
Lemma null_votes_abort :
  let run := procesar_mesa_task Run.scraper Run.mesa_42 Run.ids_42 Run.noms_42
               (Run.fresh Malformed.null_votes Run.no_cdn) in
  fst run = Raise TypeError /\ db (snd run) = ∅.
Proof. cbv zeta. split; vm_compute; reflexivity. Qed.

(** ** Worker *)

(** The worker logs what the handler raises and goes on. *)
Lemma worker_item_total self item : total (worker_item self item).
Proof.
  unfold worker_item. apply total_try_except. intros e. unfold log, emit. frame.
Qed.

Lemma worker_total self items : total (worker self items).
Proof.
  induction items as [|item rest IH]; cbn [worker].
  - apply total_ret.
  - apply total_bind; [apply worker_item_total | intros _; exact IH].
Qed.

Lemma worker_logs_abort :
  let run := worker_item Run.scraper (Run.mesa_42, Run.ids_42, Run.noms_42)
               (Run.fresh Malformed.wrapped_summary Run.no_cdn) in
  fst run = Ok tt /\ db (snd run) = ∅ /\
  List.last (trace (snd run)) (Sleep 0) = Log ERROR (MsgWorkerError AttributeError).
Proof. cbv zeta. split; [|split]; vm_compute; reflexivity. Qed.

(** ** A crawl, twice *)

(** The first run stores the two stations, with five data calls each,
    and names the unlabelled zone from the table; the second run over
    the same remote dataset stores nothing new and makes no data call. *)
Lemma second_run_no_data_calls :
  map fst (map_to_list (db Crawl.first_run)) = [43; 42] /\
  length (Crawl.data_calls (trace Crawl.first_run)) = 10%nat /\
  (fun row => nom_zona (geografia (col_json row))) <$> (db Crawl.first_run !! 42)
  = Some (VStr "URBANA") /\
  map fst (map_to_list (db Crawl.second_run)) = [43; 42] /\
  Crawl.data_calls (trace Crawl.second_run) = Crawl.data_calls (trace Crawl.first_run).
Proof.
  split; [vm_compute; reflexivity|].
  split; [vm_compute; reflexivity|].
  split; [vm_compute; reflexivity|].
  split; vm_compute; reflexivity.
Qed.
